(** * loner.py: doublet simulation, labelling, thresholding and output arrays

    A shallow embedding of [src/loner.py].  The script is a straight-line
    pipeline around an external machine-learning library; what the script
    itself computes (doublet synthesis, the doublet count, the labels of the
    classifier data set, the call threshold, the in-place update of the
    doublet flags and the slices written to disk) is embedded as executable
    functions, and what the libraries compute (file contents, random draws,
    classifier scores) is read from a record of external inputs.

    Numbers: expression counts, depths and scores are IEEE floats in the
    script.  They are embedded as rationals [Q]: every finite float is a
    rational, the order of finite floats is the order of their values, and
    sums and halves of counts are exact below 2^24.  Rounding of the float
    operations is not modelled. *)

From Stdlib Require Import QArith Qround Lqa ZArith Lia String Ascii.
From stdpp Require Import base list sorting sets.

Local Open Scope Q_scope.
Local Open Scope nat_scope.
Local Open Scope string_scope.
Local Open Scope list_scope.

(** ** Exceptions and results *)

(** The Python exceptions that the embedded statements can raise. *)
Inductive exn : Type :=
  | AssertionError
  | UnboundLocalError
  | ValueError
  | IndexError
  | ZeroDivisionError
  | SystemExit.

Inductive result (A : Type) : Type :=
  | Ok (a : A)
  | Raise (e : exn).
Arguments Ok {A} a.
Arguments Raise {A} e.

(** ** Numeric helpers *)

(** A matrix is the list of its rows ([X[i, :]] is [X !! i]). *)
Abbreviation matrix := (list (list Q)).

(** [int(x)]: truncation toward zero. *)
Definition py_int (x : Q) : Z := Z.quot (Qnum x) (Z.pos (Qden x)).

(** [a.sum()] of a vector. *)
Definition np_sum (a : list Q) : Q := foldr Qplus 0%Q a.

(** [X.sum(axis=1)]: one total per row. *)
Definition sum_axis1 (X : matrix) : list Q := fmap np_sum X.

(** Elementwise [a + b] of two rows of one matrix. *)
Definition np_add (a b : list Q) : list Q := zip_with Qplus a b.


(** Every row has [g] columns. *)
Definition rectangular (X : matrix) (g : nat) : Prop :=
  Forall (fun r => length r = g) X.


(** ** The three doublet rules (lines 27-51) *)

(** [create_average_doublet]: [(X[i, :] + X[j, :]).astype('float64') / 2].
    The indices are the naturals drawn by [np.random.choice]; a row that does
    not exist raises [IndexError]. *)
Definition create_average_doublet (X : matrix) (i j : nat) : result (list Q) :=
  match X !! i, X !! j with
  | Some xi, Some xj => Ok (fmap (fun s => s / 2)%Q (np_add xi xj))
  | _, _ => Raise IndexError
  end.

(** [create_summed_doublet]: [(X[i, :] + X[j, :]).astype('float64')]. *)
Definition create_summed_doublet (X : matrix) (i j : nat) : result (list Q) :=
  match X !! i, X !! j with
  | Some xi, Some xj => Ok (np_add xi xj)
  | _, _ => Raise IndexError
  end.

(** *** The multinomial sampler

    [scipy.stats.multinomial.rvs(n, p)] hands [n] and [p] to numpy's
    generator.  The generator is external; its law is embedded as [n]
    independent categorical draws by inverse CDF, one uniform number of
    [0, 1) per draw, counted per category.  As in numpy, whatever the
    probabilities of the leading categories leave over falls to the last
    category. *)

(** The category of one uniform draw [u]: the first category whose
    cumulative probability exceeds [u], the last one otherwise. *)
Fixpoint categorical (p : list Q) (u : Q) : nat :=
  match p with
  | [] => 0
  | [_] => 0
  | q :: p' => if Qlt_le_dec u q then 0 else S (categorical p' (u - q)%Q)
  end.

(** Add one to the count of category [c]. *)
Definition bump (c : nat) (counts : list Z) : list Z :=
  alter Z.succ c counts.

(** The counts of the draws [us], starting from zero counts. *)
Definition histogram (p : list Q) (us : list Q) : list Z :=
  foldr (fun u acc => bump (categorical p u) acc) (replicate (length p) 0%Z) us.

(** The tolerance of numpy's check on the probabilities. *)
Definition pvals_tolerance : Q := 1 + (1 # 1000000000000).

(** [multinomial.rvs(n=n, p=p)] with the uniforms [u 0, u 1, ...] of the
    generator: a negative [n], a negative probability or leading
    probabilities that exceed one raise [ValueError]. *)
Definition multinomial_rvs (u : nat -> Q) (n : Z) (p : list Q)
  : result (list Z) :=
  if (n <? 0)%Z then Raise ValueError
  else if negb (forallb (fun q => Qle_bool 0 q) p) then Raise ValueError
  else if negb (Qle_bool (np_sum (removelast p)) pvals_tolerance)
       then Raise ValueError
  else Ok (histogram p (fmap u (seq 0 (Z.to_nat n)))).

(** The probabilities handed to the sampler: the summed counts, normalised
    ([dp /= dp.sum()]). *)
Definition doublet_probabilities (xi xj : list Q) : list Q :=
  let dp := np_add xi xj in
  fmap (fun x => x / np_sum dp)%Q dp.

(** The depth handed to the sampler:
    [int(doublet_depth * (cell_depths[i] + cell_depths[j]) / 2)]. *)
Definition doublet_target_depth (doublet_depth di dj : Q) : Z :=
  py_int (doublet_depth * (di + dj) / 2)%Q.

(** [create_multinomial_doublet].  A zero total makes [dp /= dp.sum()] a
    vector of NaN, which the sampler refuses; no statement below depends on
    that case. *)
Definition create_multinomial_doublet (u : nat -> Q) (X : matrix) (i j : nat)
    (doublet_depth : Q) (cell_depths : list Q) : result (list Z) :=
  match X !! i, X !! j with
  | Some xi, Some xj =>
      match cell_depths !! i, cell_depths !! j with
      | Some di, Some dj =>
          if Qeq_bool (np_sum (np_add xi xj)) 0 then Raise ValueError
          else multinomial_rvs u (doublet_target_depth doublet_depth di dj)
                               (doublet_probabilities xi xj)
      | _, _ => Raise IndexError
      end
  | _, _ => Raise IndexError
  end.

(** ** numpy helpers used by [main] *)

(** [a[mask]] for a boolean mask of the length of [a]. *)
Fixpoint bool_index {A : Type} (mask : list bool) (a : list A) : list A :=
  match mask, a with
  | m :: mask', x :: a' =>
      if m then x :: bool_index mask' a' else bool_index mask' a'
  | _, _ => []
  end.

(** [np.unique] of a label column: the distinct values in increasing order. *)
Definition np_unique (l : list nat) : list nat :=
  merge_sort le (remove_dups l).

(** The position of [v] in [u]. *)
Fixpoint index_of (v : nat) (u : list nat) : nat :=
  match u with
  | [] => 0
  | w :: u' => if decide (v = w) then 0 else S (index_of v u')
  end.

(** [np.where(mask)[0]]: the positions that hold [True], increasing. *)
Definition np_where (mask : list bool) : list nat :=
  filter (fun i => mask !! i = Some true) (seq 0 (length mask)).

(** [a & b] of two boolean vectors with numpy's broadcasting of a vector
    of length one; other length mismatches raise [ValueError]. *)
Definition np_and (a b : list bool) : result (list bool) :=
  if decide (length a = length b) then Ok (zip_with andb a b)
  else match a, b with
       | [x], _ => Ok (fmap (andb x) b)
       | _, [y] => Ok (fmap (fun x => andb x y) a)
       | _, _ => Raise ValueError
       end.

(** [a[idxs] = True] on a boolean vector; a position outside the vector
    raises [IndexError]. *)
Definition set_true (idxs : list nat) (a : list bool) : result (list bool) :=
  if forallb (fun i => Nat.ltb i (length a)) idxs
  then Ok (foldr (fun i acc => <[i := true]> acc) a idxs)
  else Raise IndexError.

(** [labels[mask] += 1]; the mask must have the length of the column. *)
Definition mask_incr (mask : list bool) (l : list nat) : result (list nat) :=
  if decide (length mask = length l)
  then Ok (zip_with (fun (m : bool) v => if m then S v else v) mask l)
  else Raise IndexError.

Definition score_of (a : list Q) (i : nat) : Q := default 0%Q (a !! i).

(** The order of two positions by their scores. *)
Definition score_le (a : list Q) : relation nat :=
  fun i j => (score_of a i <= score_of a j)%Q.

#[global] Instance score_le_dec (a : list Q) : RelDecision (score_le a).
Proof.
  intros i j. unfold score_le.
  destruct (Qlt_le_dec (score_of a j) (score_of a i)) as [H | H].
  - right. apply Qlt_not_le, H.
  - left. exact H.
Defined.

(** [np.argpartition(a, kth)].  numpy wraps a negative [kth] once and
    refuses a [kth] outside a non-empty array with [ValueError]; the
    positions it
    returns put the element of sorted rank [kth] in place, no larger ones
    before it and no smaller ones after it.  A full sort of the positions is
    such a result; [partitioned_at] below states the contract itself, and the
    value the script extracts is the same for every result that meets it. *)
Definition np_argpartition (a : list Q) (kth : Z) : result (list nat) :=
  let n := Z.of_nat (length a) in
  let kth' := if (kth <? 0)%Z then (kth + n)%Z else kth in
  if negb (Nat.eqb (length a) 0) && ((kth' <? 0) || (n <=? kth'))%Z
  then Raise ValueError
  else Ok (merge_sort (score_le a) (seq 0 (length a))).

(** The contract of [np.argpartition(a, k)] on its result [idx]. *)
Definition partitioned_at (a : list Q) (k : nat) (idx : list nat) : Prop :=
  idx ≡ₚ seq 0 (length a) /\
  forall p q i j, idx !! p = Some i -> idx !! q = Some j ->
    p <= k -> k <= q -> (score_of a i <= score_of a j)%Q.

(** [a[idx]] for a list of positions. *)
Definition take_at (a : list Q) (idx : list nat) : result (list Q) :=
  match mapM (fun i => a !! i) idx with
  | Some v => Ok v
  | None => Raise IndexError
  end.

Definition Qmax (x y : Q) : Q := if Qlt_le_dec x y then y else x.

(** [np.max]; the empty array raises [ValueError]. *)
Definition np_max (a : list Q) : result Q :=
  match a with
  | [] => Raise ValueError
  | x :: a' => Ok (foldl Qmax x a')
  end.

(** [order_score > threshold], elementwise. *)
Definition np_gt (a : list Q) (t : Q) : list bool :=
  fmap (fun s => if Qlt_le_dec t s then true else false) a.

(** *** The k-th smallest score *)

#[global] Instance Qle_dec : RelDecision Qle.
Proof.
  intros x y. destruct (Qlt_le_dec y x) as [H | H].
  - right. apply Qlt_not_le, H.
  - left. exact H.
Defined.

(** The scores in increasing order. *)
Definition sorted_scores (a : list Q) : list Q := merge_sort Qle a.

(** The [k]-th smallest score, counting from one. *)
Definition kth_smallest (a : list Q) (k : nat) : option Q :=
  sorted_scores a !! (k - 1).

(** The number of entries that satisfy [f]. *)
Fixpoint count (f : Q -> bool) (a : list Q) : nat :=
  match a with
  | [] => 0
  | x :: a' => (if f x then 1 else 0) + count f a'
  end.

Definition below (v x : Q) : bool := if Qlt_le_dec x v then true else false.
Definition at_most (v x : Q) : bool := if Qlt_le_dec v x then false else true.

(** The value [v] has rank [p] in [a], counting from zero: at most [p]
    entries are smaller and more than [p] are not larger. *)
Definition has_rank (a : list Q) (p : nat) (v : Q) : Prop :=
  count (below v) a <= p /\ p < count (at_most v) a.

(** ** [os.path.splitext] *)

(** [p.rfind(c)], [None] for Python's [-1]. *)
Fixpoint rfind (c : ascii) (p : list ascii) : option nat :=
  match p with
  | [] => None
  | x :: p' =>
      match rfind c p' with
      | Some k => Some (S k)
      | None => if Ascii.eqb x c then Some 0 else None
      end
  end.

(** [os.path.splitext(p)[-1]]: the text from the last dot of the last path
    component, unless that component has nothing but dots before it. *)
Definition splitext_ext (p : string) : string :=
  let cs := list_ascii_of_string p in
  let filenameIndex :=
    match rfind "/"%char cs with Some s => S s | None => 0 end in
  match rfind "."%char cs with
  | Some dotIndex =>
      if decide (filenameIndex <= dotIndex) then
        if existsb (fun c => negb (Ascii.eqb c "."%char))
                   (take (dotIndex - filenameIndex) (drop filenameIndex cs))
        then string_of_list_ascii (drop dotIndex cs)
        else ""
      else ""
  | None => ""
  end.

(** ** The data set of the external library *)

(** The fields of the library's data set that the script reads and writes. *)
Record GeneExpressionDataset : Type := {
  X : matrix;
  labels : list nat;
  n_labels : nat;
  gene_names : list string
}.

(** Modelled from the spec: the library's [arrange_categories], which its
    data set constructor applies to the label column and which is not under
    src/.  The spec's data model gives real cells label 0 and the script
    comments "manually set labels to 1" on [labels += 1] of a data set built
    from a column of ones: the constructor renumbers the distinct labels
    from 0 in increasing order. *)
Definition arrange_categories (l : list nat) : list nat :=
  fmap (fun v => index_of v (np_unique l)) l.

(** Modelled from the spec: the constructor [GeneExpressionDataset(...)] of
    the library, not under src/, as far as labels go (see
    [arrange_categories]). *)
Definition new_GeneExpressionDataset (data : matrix) (lbls : list nat)
    (genes : list string) : GeneExpressionDataset :=
  {| X := data;
     labels := arrange_categories lbls;
     n_labels := length (np_unique lbls);
     gene_names := genes |}.

(** Modelled from the spec: [GeneExpressionDataset.concat_datasets] with
    [shared_labels=True] on two data sets over the same genes, not under
    src/: "real cells concatenated with synthetic doublets, sharing
    gene/batch vocabulary"; rows and labels are appended and handed to the
    constructor. *)
Definition concat_datasets (a b : GeneExpressionDataset)
  : GeneExpressionDataset :=
  new_GeneExpressionDataset (X a ++ X b) (labels a ++ labels b) (gene_names a).

(** [make_gene_expression_dataset] (lines 54-61): batch zero and a label
    column of ones for every row. *)
Definition make_gene_expression_dataset (data : matrix) (genes : list string)
  : GeneExpressionDataset :=
  new_GeneExpressionDataset data (replicate (length data) 1) genes.

(** [len(dataset)] and [X.shape]. *)
Definition num_rows (d : GeneExpressionDataset) : nat := length (X d).
Definition num_cols (m : matrix) : nat :=
  match m with [] => 0 | r :: _ => length r end.

(** ** Options, external inputs and the trace *)

Inductive doublet_kind : Type := Multinomial | Average | Sum.

(** The parsed command line options (lines 70-95); optparse admits only the
    three doublet types. *)
Record Options : Type := {
  doublet_depth : Q;
  gpu : bool;
  out_dir : string;
  doublet_ratio : Q;
  seed : option string;
  (** [options.known_doublets], the path given with [-k] *)
  known_doublets_file : option string;
  doublet_type : doublet_kind;
  expected_number_of_doublets : option Z
}.

(** What the script reads from outside: files, the random generator and the
    trained classifier. *)
Record World : Type := {
  isdir : string -> bool;
  (** the data set that [LoomDataset] or [AnnDataset] loads from a path *)
  read_dataset : string -> GeneExpressionDataset;
  (** column 0 of the known-doublets file, as pandas reads it *)
  read_csv : string -> list bool;
  (** the raw draws of [np.random.choice] *)
  draw : nat -> nat;
  (** the uniforms behind the sampling of doublet [di] *)
  uniform : nat -> nat -> Q;
  (** column 1 of [strainer.compute_predictions(soft=True)] *)
  soft_predictions : GeneExpressionDataset -> list Q;
  (** [strainer.compute_predictions()] *)
  hard_predictions : GeneExpressionDataset -> list nat
}.

Inductive ndarray : Type :=
  | FloatArray (a : list Q)
  | BoolArray (a : list bool)
  | IntArray (a : list nat).

Definition array_length (a : ndarray) : nat :=
  match a with
  | FloatArray l => length l
  | BoolArray l => length l
  | IntArray l => length l
  end.

(** The calls of [main] whose order and arguments matter here. *)
Inductive event : Type :=
  | Print (msg : string)
  | Mkdir (dir : string)
  | LoadLoom (path : string)
  | LoadAnn (path : string)
  | ReadCsv (path : string)
  | ReadJson (path : string)
  | LoadVAE (path : string)
  | TrainVAE (n_epochs : nat)
  | SaveModel (path : string)
  | SaveLatent (path : string)
  (** [doublet_function] is called for doublet [di] on cells [i] and [j] *)
  | DoubletGenerated (di i j : nat)
  | TrainClassifier (n_epochs : nat)
  | Plot (path : string)
  | NpSave (path : string) (a : ndarray).

(** ** The monad of [main]: a trace and a value or an exception *)

Definition M (A : Type) : Type := list event * result A.

Definition ret {A : Type} (a : A) : M A := ([], Ok a).
Definition raise {A : Type} (e : exn) : M A := ([], Raise e).
Definition emit (ev : event) : M unit := ([ev], Ok tt).
Definition lift {A : Type} (r : result A) : M A := ([], r).

Definition bind {A B : Type} (m : M A) (f : A -> M B) : M B :=
  match m with
  | (t1, Ok a) => let '(t2, r) := f a in (t1 ++ t2, r)
  | (t1, Raise e) => (t1, Raise e)
  end.

Notation "x <- m ;; k" := (bind m (fun x => k))
  (at level 100, m at next level, right associativity, only parsing).
Notation "m ;;; k" := (bind m (fun _ => k))
  (at level 100, right associativity, only parsing).

(** [assert c]. *)
Definition py_assert (c : bool) : M unit :=
  if c then ret tt else raise AssertionError.

(** [for x in xs: s = body(x, s)]. *)
Fixpoint for_each {S : Type} (body : nat -> S -> M S) (xs : list nat) (s : S)
  : M S :=
  match xs with
  | [] => ret s
  | x :: xs' => s' <- body x s ;; for_each body xs' s'
  end.

Definition path_in (dir file : string) : string := dir ++ "/" ++ file.

(** ** [main], stage by stage *)

(** Lines 97-101: exactly two positional arguments, or [parser.error]. *)
Definition parse_args (args : list string) : M (string * string) :=
  match args with
  | [model_json_file; data_file] => ret (model_json_file, data_file)
  | _ => raise SystemExit
  end.

(** Lines 103-104. *)
Definition ensure_out_dir (W : World) (o : Options) : M unit :=
  if isdir W (out_dir o) then ret tt else emit (Mkdir (out_dir o)).

(** Lines 110-116: the value is the binding of the local [scvi_data],
    [None] while the name is unbound. *)
Definition load_data (W : World) (data_file : string)
  : M (option GeneExpressionDataset) :=
  let data_ext := splitext_ext data_file in
  if String.eqb data_ext ".loom" then
    emit (LoadLoom data_file) ;;; ret (Some (read_dataset W data_file))
  else if String.eqb data_ext ".h5ad" then
    emit (LoadAnn data_file) ;;; ret (Some (read_dataset W data_file))
  else
    emit (Print "Unrecognized file format") ;;; ret None.

(** Reading a local variable of [main]. *)
Definition read_var {A : Type} (v : option A) : M A :=
  match v with
  | Some a => ret a
  | None => raise UnboundLocalError
  end.

(** Lines 120-138: the known-doublet flags, the known doublets' data set and
    the singlets' data set. *)
Definition split_known (W : World) (o : Options)
    (scvi_data : GeneExpressionDataset)
  : M (list bool * option GeneExpressionDataset * GeneExpressionDataset) :=
  match known_doublets_file o with
  | Some path =>
      emit (Print "Removing known doublets for in silico doublet generation") ;;;
      emit (Print "Make sure known doublets are in the same order as your data") ;;;
      emit (ReadCsv path) ;;;
      let known_doublets := read_csv W path in
      py_assert (Nat.eqb (length known_doublets) (length (X scvi_data))) ;;;
      let known_doublet_data :=
        make_gene_expression_dataset (bool_index known_doublets (X scvi_data))
                                     (gene_names scvi_data) in
      let singlet_scvi_data :=
        make_gene_expression_dataset
          (bool_index (fmap negb known_doublets) (X scvi_data))
          (gene_names scvi_data) in
      ret (known_doublets, Some known_doublet_data, singlet_scvi_data)
  | None =>
      ret (replicate (num_rows scvi_data) false, None, scvi_data)
  end.

(** Lines 143-208: the parameters are read and the VAE is loaded from the
    seed or trained and saved.  The library calls are traced, their numbers
    are not modelled. *)
Definition vae_stage (o : Options) (model_json_file : string) : M unit :=
  emit (ReadJson model_json_file) ;;;
  let train :=
    emit (TrainVAE 2000) ;;;
    emit (TrainVAE 500) ;;;
    emit (SaveModel (path_in (out_dir o) "vae.pt")) ;;;
    emit (SaveLatent (path_in (out_dir o) "latent.npy")) in
  match seed o with
  | Some s => if String.eqb s "" then train else emit (LoadVAE s)
  | None => train
  end.

(** [np.random.choice(n, size=2)] for doublet [di]: two positions of
    [range(n)]; an empty range raises [ValueError]. *)
Definition random_choice2 (W : World) (di n : nat) : result (nat * nat) :=
  if Nat.eqb n 0 then Raise ValueError
  else Ok (draw W (2 * di) mod n, draw W (2 * di + 1) mod n).

(** Lines 224-231 and the call of lines 239-241. *)
Definition doublet_function (W : World) (o : Options) (di : nat)
    (data : matrix) (i j : nat) (cell_depths : list Q) : result (list Q) :=
  match doublet_type o with
  | Average => create_average_doublet data i j
  | Sum => create_summed_doublet data i j
  | Multinomial =>
      match create_multinomial_doublet (uniform W di) data i j
                                       (doublet_depth o) cell_depths with
      | Ok counts => Ok (fmap inject_Z counts)
      | Raise e => Raise e
      end
  end.

(** [np.zeros((n, g))]; a negative dimension raises [ValueError]. *)
Definition np_zeros2 (n : Z) (g : nat) : result matrix :=
  if (n <? 0)%Z then Raise ValueError
  else Ok (replicate (Z.to_nat n) (replicate g 0%Q)).

(** [m[di, :] = row]: the row must have the width of the matrix or one
    entry, which is repeated. *)
Definition set_row (di : nat) (row : list Q) (m : matrix) : result matrix :=
  match m !! di with
  | None => Raise IndexError
  | Some old =>
      if decide (length row = length old) then Ok (<[di := row]> m)
      else match row with
           | [x] => Ok (<[di := replicate (length old) x]> m)
           | _ => Raise ValueError
           end
  end.

(** Lines 215-220: the number of doublets to simulate. *)
Definition count_doublets (o : Options) (singlet_num_cells : nat)
    (known_doublet_data : option GeneExpressionDataset) : M Z :=
  let num_doublets :=
    py_int (doublet_ratio o * inject_Z (Z.of_nat singlet_num_cells))%Q in
  match known_doublet_data with
  | Some kd =>
      let num_doublets := (num_doublets - Z.of_nat (length (X kd)))%Z in
      py_assert (0 <=? num_doublets)%Z ;;;
      ret num_doublets
  | None => ret num_doublets
  end.

(** Lines 233-241: the body of the loop for doublet [di]. *)
Definition simulate_one (W : World) (o : Options)
    (singlet_scvi_data : GeneExpressionDataset) (cell_depths : list Q)
    (di : nat) (X_doublets : matrix) : M matrix :=
  ij <- lift (random_choice2 W di (length (X singlet_scvi_data))) ;;
  emit (DoubletGenerated di (fst ij) (snd ij)) ;;;
  row <- lift (doublet_function W o di (X singlet_scvi_data)
                                (fst ij) (snd ij) cell_depths) ;;
  lift (set_row di row X_doublets).

(** Lines 214-241. *)
Definition simulate_doublets (W : World) (o : Options)
    (singlet_scvi_data : GeneExpressionDataset)
    (known_doublet_data : option GeneExpressionDataset) (num_genes : nat)
  : M matrix :=
  let singlet_num_cells := length (X singlet_scvi_data) in
  let cell_depths := sum_axis1 (X singlet_scvi_data) in
  num_doublets <- count_doublets o singlet_num_cells known_doublet_data ;;
  X_doublets <- lift (np_zeros2 num_doublets num_genes) ;;
  for_each (simulate_one W o singlet_scvi_data cell_depths)
           (seq 0 (Z.to_nat num_doublets)) X_doublets.

(** Lines 245-258: the labelled data set of the classifier. *)
Definition merge_datasets (scvi_data : GeneExpressionDataset)
    (known_doublets : list bool) (X_doublets : matrix)
  : M GeneExpressionDataset :=
  let doublet_data :=
    make_gene_expression_dataset X_doublets (gene_names scvi_data) in
  let doublet_data :=
    {| X := X doublet_data;
       labels := fmap S (labels doublet_data);
       n_labels := 2;
       gene_names := gene_names doublet_data |} in
  scvi_labels <- lift (mask_incr known_doublets (labels scvi_data)) ;;
  let scvi_data :=
    {| X := X scvi_data;
       labels := scvi_labels;
       n_labels := 2;
       gene_names := gene_names scvi_data |} in
  let classifier_data := concat_datasets scvi_data doublet_data in
  py_assert (Nat.eqb (length (np_unique (labels classifier_data))) 2) ;;;
  ret classifier_data.

(** Lines 264-340: the classifier is trained and saved, and the ROC and
    accuracy curves are plotted.  The accuracy and AUROC reports print
    numbers of the trainer and are not traced. *)
Definition classifier_stage (o : Options) : M unit :=
  emit (TrainClassifier 1000) ;;;
  emit (TrainClassifier 300) ;;;
  emit (SaveModel (path_in (out_dir o) "classifier.pt")) ;;;
  emit (Plot (path_in (out_dir o) "roc.pdf")) ;;;
  emit (Plot (path_in (out_dir o) "accuracy.pdf")).

Definition half_warning : string :=
  "Make sure you actually expect more than half your cells to be doublets. If not change your -e parameter value".

(** Lines 349-360: the threshold of the doublet calls. *)
Definition select_threshold (expected : option Z) (order_score : list Q)
    (num_cells : nat) : M Q :=
  match expected with
  | Some e =>
      let loner_scores := take num_cells order_score in
      let k := (Z.of_nat (length loner_scores) - e)%Z in
      (if Nat.eqb (length loner_scores) 0 then raise ZeroDivisionError
       else if Qlt_le_dec (1 # 2)
                 (inject_Z e / inject_Z (Z.of_nat (length loner_scores)))
            then emit (Print half_warning)
            else ret tt) ;;;
      py_assert (0 <? k)%Z ;;;
      idx <- lift (np_argpartition loner_scores k) ;;
      smallest <- lift (take_at loner_scores (take (Z.to_nat k) idx)) ;;
      lift (np_max smallest)
  | None => ret (1 # 2)%Q
  end.

(** Lines 379-381: [is_doublet] is the array [known_doublets] itself, and
    the new calls among the real cells are set in it. *)
Definition update_is_doublet (known_doublets : list bool)
    (is_loner_doublet : list bool) (num_cells : nat) : result (list bool) :=
  let is_doublet := known_doublets in
  match np_and (fmap negb is_doublet) (take num_cells is_loner_doublet) with
  | Ok new_mask => set_true (np_where new_mask) is_doublet
  | Raise e => Raise e
  end.

(** Lines 343-388. *)
Definition post_processing (W : World) (o : Options)
    (classifier_data : GeneExpressionDataset) (num_cells : nat)
    (known_doublets : list bool) : M unit :=
  let order_score := soft_predictions W classifier_data in
  emit (NpSave (path_in (out_dir o) "scores.npy")
               (FloatArray (take num_cells order_score))) ;;;
  emit (NpSave (path_in (out_dir o) "scores_sim.npy")
               (FloatArray (drop num_cells order_score))) ;;;
  threshold <- select_threshold (expected_number_of_doublets o)
                                order_score num_cells ;;
  let is_loner_doublet := np_gt order_score threshold in
  emit (Plot (path_in (out_dir o) "train_v_test_dist.pdf")) ;;;
  emit (Plot (path_in (out_dir o) "real_cells_dist.pdf")) ;;;
  is_doublet <- lift (update_is_doublet known_doublets is_loner_doublet
                                        num_cells) ;;
  emit (NpSave (path_in (out_dir o) "is_doublet.npy")
               (BoolArray (take num_cells is_doublet))) ;;;
  emit (NpSave (path_in (out_dir o) "is_doublet_sim.npy")
               (BoolArray (drop num_cells is_doublet))) ;;;
  let order_pred := hard_predictions W classifier_data in
  emit (NpSave (path_in (out_dir o) "preds.npy")
               (IntArray (take num_cells order_pred))) ;;;
  emit (NpSave (path_in (out_dir o) "preds_sim.npy")
               (IntArray (drop num_cells order_pred))).

(** [main] (lines 67-388). *)
Definition main (W : World) (o : Options) (args : list string) : M unit :=
  files <- parse_args args ;;
  let model_json_file := fst files in
  let data_file := snd files in
  ensure_out_dir W o ;;;
  scvi_data_var <- load_data W data_file ;;
  scvi_data <- read_var scvi_data_var ;;
  let num_cells := length (X scvi_data) in
  let num_genes := num_cols (X scvi_data) in
  parts <- split_known W o scvi_data ;;
  let known_doublets := fst (fst parts) in
  let known_doublet_data := snd (fst parts) in
  let singlet_scvi_data := snd parts in
  vae_stage o model_json_file ;;;
  X_doublets <- simulate_doublets W o singlet_scvi_data known_doublet_data
                                  num_genes ;;
  classifier_data <- merge_datasets scvi_data known_doublets X_doublets ;;
  classifier_stage o ;;;
  post_processing W o classifier_data num_cells known_doublets.

(** The events of doublet generation and of training. *)
Definition generates_or_trains (ev : event) : bool :=
  match ev with
  | LoadVAE _ | TrainVAE _ | DoubletGenerated _ _ _ | TrainClassifier _ => true
  | _ => false
  end.

Definition is_doublet_generated (ev : event) : bool :=
  match ev with DoubletGenerated _ _ _ => true | _ => false end.

(** The number of doublets generated along a trace. *)
Fixpoint doublets_generated (tr : list event) : nat :=
  match tr with
  | [] => 0
  | ev :: tr' =>
      (if is_doublet_generated ev then 1 else 0) + doublets_generated tr'
  end.

(** The number of doublets that lines 215-218 ask for. *)
Definition requested_doublets (o : Options) (singlet_num_cells : nat)
    (known_doublet_data : option GeneExpressionDataset) : Z :=
  (py_int (doublet_ratio o * inject_Z (Z.of_nat singlet_num_cells))%Q
   - match known_doublet_data with
     | Some kd => Z.of_nat (length (X kd))
     | None => 0
     end)%Z.

Definition is_np_save (ev : event) : bool :=
  match ev with NpSave _ _ => true | _ => false end.

(** The arrays that a trace saves under [path], in order. *)
Fixpoint saved (path : string) (tr : list event) : list ndarray :=
  match tr with
  | [] => []
  | NpSave p a :: tr' =>
      if String.eqb p path then a :: saved path tr' else saved path tr'
  | _ :: tr' => saved path tr'
  end.

(** A stretch of trace that saves no array and generates no doublet. *)
Definition quiet (tr : list event) : Prop :=
  Forall (fun ev => is_np_save ev = false /\ is_doublet_generated ev = false)
         tr.

(** The trace and the outcome of a run. *)
Definition trace_of {A : Type} (m : M A) : list event := fst m.
Definition outcome_of {A : Type} (m : M A) : result A := snd m.

(** ** Sample inputs *)

(** Three cells over three genes, unlabelled. *)
Definition sample_dataset : GeneExpressionDataset :=
  {| X := [[1; 0; 3]; [2; 2; 0]; [0; 1; 0]]%Q;
     labels := [0; 0; 0];
     n_labels := 1;
     gene_names := ["g1"; "g2"; "g3"] |}.

(** A world whose data file holds [sample_dataset], whose known-doublets
    file flags the first cell, and whose classifier scores row [r] of its
    data set [r / 10] and predicts [r mod 2]. *)
Definition sample_world : World :=
  {| isdir := fun _ => true;
     read_dataset := fun _ => sample_dataset;
     read_csv := fun _ => [true; false; false];
     draw := fun k => k;
     uniform := fun _ k => (Z.of_nat k # 10)%Q;
     soft_predictions := fun d =>
       (fun r => (Z.of_nat r # 10)%Q) <$> seq 0 (length (X d));
     hard_predictions := fun d =>
       (fun r => r mod 2) <$> seq 0 (length (X d)) |}.

(** The default options with the given ratio, known-doublets file, doublet
    type and expected number of doublets. *)
Definition sample_options (ratio : Q) (known : option string)
    (kind : doublet_kind) (expected : option Z) : Options :=
  {| doublet_depth := 1;
     gpu := false;
     out_dir := "loner_out";
     doublet_ratio := ratio;
     seed := None;
     known_doublets_file := known;
     doublet_type := kind;
     expected_number_of_doublets := expected |}.

(** ** More of [main] *)

(** The number of cells that a mask flags ([mask.sum()]). *)
Definition num_flagged (mask : list bool) : nat :=
  length (filter (fun b : bool => b = true) mask).




(** The trace of the threshold selection when it gets past line 355: the
    warning of lines 352-355 or nothing. *)
Definition half_warning_trace (e : Z) (n : nat) : list event :=
  if decide (Z.of_nat n < 2 * e)%Z then [Print half_warning] else [].

(** The entries that are [==] to [v]. *)
Definition same_score (v x : Q) : bool := Qeq_bool x v.



(** ** The accuracy curves (lines 314-331) *)

(** The bound of lines 314-315, [1 + 1e-9]. *)
Definition clip_bound : Q := 1 + (1 # 1000000000).

(** [np.minimum(a, c)] for a scalar [c]. *)
Definition np_minimum (a : list Q) (c : Q) : list Q :=
  (fun x => if Qlt_le_dec c x then c else x) <$> a.

(** [a == b] of two boolean vectors of one length, as [train_y] and
    [train_score > t] are. *)
Definition np_equal (a b : list bool) : list bool := zip_with Bool.eqb a b.

(** [np.mean] of a boolean vector; [None] stands for the NaN that numpy
    returns for an empty vector. *)
Definition np_mean (a : list bool) : option Q :=
  match a with
  | [] => None
  | _ => Some (inject_Z (Z.of_nat (num_flagged a))
               / inject_Z (Z.of_nat (length a)))%Q
  end.

(** Lines 328 and 331: [np.mean(y == (score > t))]. *)
Definition accuracy_at (y : list bool) (score : list Q) (t : Q) : option Q :=
  np_mean (np_equal y (np_gt score t)).

(** Lines 326-331: one accuracy per threshold. *)
Definition accuracy_curve (y : list bool) (score : list Q) (ts : list Q)
  : list (option Q) :=
  accuracy_at y score <$> ts.

(** ** Exceptions a run cannot end in *)

(** The run [m] does not end in the exception [e]. *)
Definition never_raises {A : Type} (e : exn) (m : M A) : Prop :=
  outcome_of m <> Raise e.


(** * Properties *)

(** ** Sums of rows *)

Section sums.
Implicit Types (a b : list Q) (t : Q).


Lemma np_sum_add a b :
  length a = length b -> (np_sum (np_add a b) == np_sum a + np_sum b)%Q.
Proof.
  revert b. induction a as [| x a IH]; intros [| y b] Hlen;
    simplify_eq/=; [reflexivity |].
  rewrite (IH b) by done. ring.
Qed.

Lemma np_sum_scale a t :
  (np_sum ((fun x => x / t) <$> a) == np_sum a / t)%Q.
Proof.
  induction a as [| x a IH]; simpl.
  - unfold Qdiv. ring.
  - rewrite IH. unfold Qdiv. ring.
Qed.


End sums.


(** ** The sampler *)




Lemma histogram_length (p us : list Q) : length (histogram p us) = length p.
Proof.
  unfold histogram. induction us as [| u us IH]; simpl.
  - apply length_replicate.
  - unfold bump. by rewrite length_alter.
Qed.




Lemma np_add_nonneg (a b : list Q) :
  Forall (fun x => 0 <= x)%Q a -> Forall (fun x => 0 <= x)%Q b ->
  Forall (fun x => 0 <= x)%Q (np_add a b).
Proof.
  intros Ha. revert b. induction Ha as [| x a Hx Ha IH]; intros b Hb;
    destruct Hb as [| y b Hy Hb]; simpl; constructor.
  - cbv beta in *. lra.
  - by apply IH.
Qed.


(** ** The doublet rules *)

Lemma np_add_lookup (a b : list Q) (g : nat) (x y : Q) :
  a !! g = Some x -> b !! g = Some y -> np_add a b !! g = Some (x + y)%Q.
Proof.
  intros Ha Hb. unfold np_add. rewrite lookup_zip_with, Ha. simpl.
  by rewrite Hb.
Qed.

Lemma np_add_length (a b : list Q) :
  length a = length b -> length (np_add a b) = length a.
Proof. intros H. unfold np_add. rewrite length_zip_with. lia. Qed.

Lemma rectangular_row (data : matrix) (g i : nat) (r : list Q) :
  rectangular data g -> data !! i = Some r -> length r = g.
Proof.
  unfold rectangular. rewrite Forall_lookup. intros H Hi. exact (H i r Hi).
Qed.

(** C4: for every matrix and every two cells of it, the average doublet is
    the elementwise mean [(X[i] + X[j]) / 2] of the two rows and the summed
    doublet is their elementwise sum [X[i] + X[j]]. *)
Theorem average_and_summed_doublet
    (data : matrix) (num_genes i j : nat) (xi xj : list Q) :
  rectangular data num_genes ->
  data !! i = Some xi -> data !! j = Some xj ->
  exists avg sm,
    create_average_doublet data i j = Ok avg /\
    create_summed_doublet data i j = Ok sm /\
    length avg = num_genes /\ length sm = num_genes /\
    forall g, g < num_genes ->
      exists a b, xi !! g = Some a /\ xj !! g = Some b /\
        avg !! g = Some ((a + b) / 2)%Q /\ sm !! g = Some (a + b)%Q.
Proof.
  intros Hrect Hi Hj.
  pose proof (rectangular_row _ _ _ _ Hrect Hi) as Hli.
  pose proof (rectangular_row _ _ _ _ Hrect Hj) as Hlj.
  unfold create_average_doublet, create_summed_doublet. rewrite Hi, Hj.
  eexists _, _. split; [reflexivity |]. split; [reflexivity |].
  split; [| split].
  - rewrite length_fmap, np_add_length; lia.
  - rewrite np_add_length; lia.
  - intros g Hg.
    destruct (lookup_lt_is_Some_2 xi g) as [a Ha]; [lia |].
    destruct (lookup_lt_is_Some_2 xj g) as [b Hb]; [lia |].
    exists a, b. split; [done |]. split; [done |].
    rewrite list_lookup_fmap, (np_add_lookup _ _ _ _ _ Ha Hb). done.
Qed.

Lemma average_and_summed_doublet_witness :
  exists avg sm,
    create_average_doublet [[1; 0; 3]; [2; 2; 0]]%Q 0 1 = Ok avg /\
    create_summed_doublet [[1; 0; 3]; [2; 2; 0]]%Q 0 1 = Ok sm /\
    length avg = 3 /\ length sm = 3 /\
    forall g, g < 3 ->
      exists a b, [1; 0; 3]%Q !! g = Some a /\ [2; 2; 0]%Q !! g = Some b /\
        avg !! g = Some ((a + b) / 2)%Q /\ sm !! g = Some (a + b)%Q.
Proof.
  apply (average_and_summed_doublet [[1; 0; 3]; [2; 2; 0]]%Q 3 0 1).
  - repeat constructor.
  - reflexivity.
  - reflexivity.
Defined.


Lemma sum_axis1_lookup (data : matrix) (i : nat) (r : list Q) :
  data !! i = Some r -> sum_axis1 data !! i = Some (np_sum r).
Proof. intros H. unfold sum_axis1. by rewrite list_lookup_fmap, H. Qed.



(** ** The monad *)

Lemma bind_Ok {A B : Type} (m : M A) (f : A -> M B) (t1 : list event) (a : A) :
  m = (t1, Ok a) ->
  bind m f = (t1 ++ trace_of (f a), outcome_of (f a)).
Proof. intros ->. unfold bind. by destruct (f a). Qed.

Lemma bind_Raise {A B : Type} (m : M A) (f : A -> M B) (t1 : list event)
    (e : exn) :
  m = (t1, Raise e) -> bind m f = (t1, Raise e).
Proof. by intros ->. Qed.

Lemma bind_Ok_inv {A B : Type} (m : M A) (f : A -> M B) (tr : list event)
    (b : B) :
  bind m f = (tr, Ok b) ->
  exists t1 a t2, m = (t1, Ok a) /\ f a = (t2, Ok b) /\ tr = t1 ++ t2.
Proof.
  destruct m as [t1 [a | e]]; simpl; [| done].
  destruct (f a) as [t2 r] eqn:Hf. intros [= <- ->]. by exists t1, a, t2.
Qed.

Lemma ensure_out_dir_Ok (W : World) (o : Options) :
  ensure_out_dir W o = (trace_of (ensure_out_dir W o), Ok tt).
Proof. unfold ensure_out_dir. by destruct (isdir W (out_dir o)). Qed.

Lemma ensure_out_dir_quiet (W : World) (o : Options) (ev : event) :
  In ev (trace_of (ensure_out_dir W o)) -> ev = Mkdir (out_dir o).
Proof.
  unfold ensure_out_dir. destruct (isdir W (out_dir o)); simpl; [done |].
  by intros [<- | []].
Qed.

(** ** The data file (lines 110-118) *)

(** C3: when the extension of the data file is neither [.loom] nor [.h5ad],
    the branch prints 'Unrecognized file format', raises nothing and leaves
    [scvi_data] unbound; [main] goes on to the next statement, whose read of
    the unbound name ends the run with [UnboundLocalError]. *)
Theorem unrecognized_format_proceeds
    (W : World) (o : Options) (model_json_file data_file : string) :
  splitext_ext data_file <> ".loom" ->
  splitext_ext data_file <> ".h5ad" ->
  load_data W data_file = ([Print "Unrecognized file format"], Ok None) /\
  main W o [model_json_file; data_file]
  = (trace_of (ensure_out_dir W o) ++ [Print "Unrecognized file format"],
     Raise UnboundLocalError).
Proof.
  intros Hloom Hann.
  assert (Hload : load_data W data_file
                  = ([Print "Unrecognized file format"], Ok None)).
  { unfold load_data.
    destruct (String.eqb_spec (splitext_ext data_file) ".loom"); [done |].
    destruct (String.eqb_spec (splitext_ext data_file) ".h5ad"); [done |].
    reflexivity. }
  split; [exact Hload |].
  unfold main. simpl.
  rewrite (bind_Ok _ _ _ _ (ensure_out_dir_Ok W o)).
  rewrite Hload. reflexivity.
Qed.

Lemma unrecognized_format_proceeds_witness :
  main {| isdir := fun _ => true;
          read_dataset := fun _ =>
            {| X := []; labels := []; n_labels := 0; gene_names := [] |};
          read_csv := fun _ => [];
          draw := fun k => k;
          uniform := fun _ _ => 0%Q;
          soft_predictions := fun _ => [];
          hard_predictions := fun _ => [] |}
       {| doublet_depth := 1; gpu := false; out_dir := "loner_out";
          doublet_ratio := 1; seed := None; known_doublets_file := None;
          doublet_type := Multinomial;
          expected_number_of_doublets := None |}
       ["model.json"; "cells.csv"]
  = ([Print "Unrecognized file format"], Raise UnboundLocalError).
Proof.
  refine (proj2 (unrecognized_format_proceeds _ _ "model.json" "cells.csv"
                   _ _)); discriminate.
Defined.

(** ** The known-doublets file (lines 120-131) *)

Lemma split_known_mismatch (W : World) (o : Options)
    (scvi_data : GeneExpressionDataset) (path : string) :
  known_doublets_file o = Some path ->
  length (read_csv W path) <> length (X scvi_data) ->
  split_known W o scvi_data
  = ([Print "Removing known doublets for in silico doublet generation";
      Print "Make sure known doublets are in the same order as your data";
      ReadCsv path], Raise AssertionError).
Proof.
  intros Hfile Hlen. unfold split_known. rewrite Hfile. simpl.
  by destruct (Nat.eqb_spec (length (read_csv W path)) (length (X scvi_data))).
Qed.

(** C7: with a known-doublets file, [main] asserts that the file has one
    entry per row of the input matrix: a different number ends the run with
    [AssertionError] when nothing but the data and the file has been read, so
    before any doublet is generated and before any training; an equal number
    passes the assertion. *)
Theorem known_doublets_length_asserted
    (W : World) (o : Options) (model_json_file data_file path : string) :
  known_doublets_file o = Some path ->
  splitext_ext data_file = ".loom" \/ splitext_ext data_file = ".h5ad" ->
  let scvi_data := read_dataset W data_file in
  (length (read_csv W path) <> length (X scvi_data) ->
   exists tr,
     main W o [model_json_file; data_file] = (tr, Raise AssertionError) /\
     Forall (fun ev => generates_or_trains ev = false) tr /\
     In (ReadCsv path) tr) /\
  (length (read_csv W path) = length (X scvi_data) ->
   exists singlets doublets,
     outcome_of (split_known W o scvi_data)
     = Ok (read_csv W path, Some doublets, singlets)).
Proof.
  intros Hfile Hext scvi_data. split.
  - intros Hlen.
    assert (Hload : exists ev, generates_or_trains ev = false /\
              load_data W data_file = ([ev], Ok (Some scvi_data))).
    { unfold load_data.
      destruct Hext as [-> | ->]; simpl;
        (eexists; split; [| reflexivity]; reflexivity). }
    destruct Hload as (ev & Hev & Hload).
    eexists. split; [| split].
    + unfold main. simpl.
      rewrite (bind_Ok _ _ _ _ (ensure_out_dir_Ok W o)).
      rewrite Hload. simpl.
      rewrite (split_known_mismatch _ _ _ _ Hfile Hlen). reflexivity.
    + apply Forall_app. split.
      * apply Forall_forall. intros ev' Hin%list_elem_of_In.
        by rewrite (ensure_out_dir_quiet _ _ _ Hin).
      * repeat constructor. exact Hev.
    + apply in_or_app. right. simpl. tauto.
  - intros Hlen. unfold split_known. rewrite Hfile. simpl.
    rewrite Hlen, Nat.eqb_refl. simpl. eauto.
Qed.

(** ** The number of simulated doublets (lines 214-241) *)

Lemma doublets_generated_app (t1 t2 : list event) :
  doublets_generated (t1 ++ t2) = doublets_generated t1 + doublets_generated t2.
Proof. induction t1 as [| ev t1 IH]; simpl; [done | rewrite IH; lia]. Qed.

Lemma set_row_Ok_length (di : nat) (row : list Q) (m m' : matrix) :
  set_row di row m = Ok m' -> length m' = length m.
Proof.
  unfold set_row. destruct (m !! di) as [old |]; [| done].
  destruct (decide (length row = length old)).
  - intros [= <-]. apply length_insert.
  - destruct row as [| x [| ? ?]]; try done. intros [= <-].
    apply length_insert.
Qed.

Lemma simulate_one_Ok_inv (W : World) (o : Options)
    (singlets : GeneExpressionDataset) (depths : list Q) (di : nat)
    (m m' : matrix) (tr : list event) :
  simulate_one W o singlets depths di m = (tr, Ok m') ->
  length m' = length m /\ doublets_generated tr = 1.
Proof.
  unfold simulate_one. intros H.
  apply bind_Ok_inv in H as (t1 & ij & t2 & Hij & H & ->).
  apply bind_Ok_inv in H as (t3 & [] & t4 & Hev & H & ->).
  apply bind_Ok_inv in H as (t5 & row & t6 & Hrow & H & ->).
  unfold lift, emit in *. simplify_eq/=.
  split; [by eapply set_row_Ok_length | done].
Qed.

Lemma for_each_simulate_Ok_inv (W : World) (o : Options)
    (singlets : GeneExpressionDataset) (depths : list Q) (xs : list nat)
    (m m' : matrix) (tr : list event) :
  for_each (simulate_one W o singlets depths) xs m = (tr, Ok m') ->
  length m' = length m /\ doublets_generated tr = length xs.
Proof.
  revert m tr. induction xs as [| x xs IH]; intros m tr H; simpl in H.
  - unfold ret in H. by simplify_eq/=.
  - apply bind_Ok_inv in H as (t1 & m1 & t2 & H1 & H2 & ->).
    apply simulate_one_Ok_inv in H1 as [Hl1 Hg1].
    apply IH in H2 as [Hl2 Hg2].
    rewrite doublets_generated_app. simpl. lia.
Qed.

Lemma count_doublets_eq (o : Options) (n : nat)
    (known : option GeneExpressionDataset) :
  count_doublets o n known
  = ([], match known with
         | Some _ =>
             if (0 <=? requested_doublets o n known)%Z
             then Ok (requested_doublets o n known)
             else Raise AssertionError
         | None => Ok (requested_doublets o n known)
         end).
Proof.
  unfold count_doublets, requested_doublets. destruct known as [kd |].
  - by destruct (0 <=? _)%Z.
  - by rewrite Z.sub_0_r.
Qed.

Lemma simulate_doublets_negative (W : World) (o : Options)
    (singlets : GeneExpressionDataset)
    (known : option GeneExpressionDataset) (g : nat) :
  (requested_doublets o (length (X singlets)) known < 0)%Z ->
  simulate_doublets W o singlets known g
  = ([], Raise match known with
               | Some _ => AssertionError
               | None => ValueError
               end).
Proof.
  intros Hneg. unfold simulate_doublets. rewrite count_doublets_eq.
  destruct known as [kd |].
  - destruct (Z.leb_spec 0 (requested_doublets o (length (X singlets))
                                               (Some kd))); [lia | done].
  - simpl. unfold np_zeros2.
    destruct (Z.ltb_spec (requested_doublets o (length (X singlets)) None) 0);
      [done | lia].
Qed.

Lemma simulate_doublets_Ok_inv (W : World) (o : Options)
    (singlets : GeneExpressionDataset)
    (known : option GeneExpressionDataset) (g : nat)
    (tr : list event) (m : matrix) :
  simulate_doublets W o singlets known g = (tr, Ok m) ->
  (0 <= requested_doublets o (length (X singlets)) known)%Z /\
  length m = Z.to_nat (requested_doublets o (length (X singlets)) known) /\
  doublets_generated tr = length m.
Proof.
  intros H.
  destruct (Z.ltb_spec (requested_doublets o (length (X singlets)) known) 0)
    as [Hneg | Hpos].
  { by rewrite (simulate_doublets_negative _ _ _ _ _ Hneg) in H. }
  split; [done |].
  unfold simulate_doublets in H. rewrite count_doublets_eq in H.
  apply bind_Ok_inv in H as (t1 & z & t2 & Hz & H & ->).
  assert (z = requested_doublets o (length (X singlets)) known /\ t1 = [])
    as [-> ->].
  { destruct known; [destruct (0 <=? _)%Z |]; by simplify_eq/=. }
  apply bind_Ok_inv in H as (t3 & m0 & t4 & Hm0 & H & ->).
  unfold lift, np_zeros2 in Hm0.
  destruct (_ <? 0)%Z; simplify_eq/=.
  apply for_each_simulate_Ok_inv in H as [Hl Hg].
  rewrite length_replicate in Hl. rewrite length_seq in Hg. lia.
Qed.








(** ** Labels of the classifier data (lines 245-258) *)

Lemma np_unique_elem_of (l : list nat) (v : nat) : v ∈ np_unique l <-> v ∈ l.
Proof.
  unfold np_unique. by rewrite merge_sort_Permutation, elem_of_remove_dups.
Qed.

Lemma np_unique_NoDup (l : list nat) : NoDup (np_unique l).
Proof.
  unfold np_unique. rewrite merge_sort_Permutation. apply NoDup_remove_dups.
Qed.

Lemma np_unique_sorted (l : list nat) : StronglySorted le (np_unique l).
Proof. unfold np_unique. apply StronglySorted_merge_sort; apply _. Qed.

(** A label column with two distinct values has exactly two values. *)
Lemma two_unique_values (l : list nat) :
  length (np_unique l) = 2 ->
  exists a b, a <> b /\ forall v, v ∈ l <-> v = a \/ v = b.
Proof.
  intros Hlen. pose proof (np_unique_NoDup l) as Hnd.
  destruct (np_unique l) as [| a [| b [| ? ?]]] eqn:Hu; try done.
  exists a, b. split.
  - apply NoDup_cons in Hnd as [Hab _]. intros ->. apply Hab, elem_of_cons.
    auto.
  - intros v. rewrite <- np_unique_elem_of, Hu.
    rewrite elem_of_cons, list_elem_of_singleton. tauto.
Qed.

(** The sorted distinct values of a column over 0 and 1. *)
Lemma np_unique_bits (l : list nat) :
  Forall (fun v => v <= 1) l ->
  np_unique l = [] \/ np_unique l = [0] \/ np_unique l = [1] \/
  np_unique l = [0; 1].
Proof.
  intros Hl.
  assert (Hu : Forall (fun v => v <= 1) (np_unique l)).
  { rewrite Forall_forall in *. intros v Hv. by apply Hl, np_unique_elem_of. }
  pose proof (np_unique_NoDup l) as Hnd.
  pose proof (np_unique_sorted l) as Hs.
  destruct (np_unique l) as [| a [| b u]]; [by left | |].
  - apply Forall_cons in Hu as [Ha _].
    assert (a = 0 \/ a = 1) as [-> | ->] by lia; auto.
  - apply Forall_cons in Hu as [Ha [Hb Hu]%Forall_cons].
    apply NoDup_cons in Hnd as [Hab [Hbu _]%NoDup_cons].
    apply StronglySorted_inv in Hs as [Hs Hle].
    apply Forall_cons in Hle as [Hle _].
    assert (a <> b) as Hne by (intros ->; apply Hab, elem_of_cons; auto).
    assert (a = 0 /\ b = 1) as [-> ->] by lia.
    destruct u as [| c u]; [by auto |]. exfalso.
    apply StronglySorted_inv in Hs as [_ [Hc _]%Forall_cons].
    apply Forall_cons in Hu as [Hc1 _].
    assert (c = 1) as -> by lia. apply Hbu, elem_of_cons. auto.
Qed.

Lemma arrange_categories_length (l : list nat) :
  length (arrange_categories l) = length l.
Proof. unfold arrange_categories. apply length_fmap. Qed.

Lemma arrange_categories_with (l u : list nat) :
  np_unique l = u -> arrange_categories l = (fun v => index_of v u) <$> l.
Proof. by intros <-. Qed.

Lemma replicate_one_value (n a b : nat) :
  a <> b -> ~ (forall v, v ∈ replicate n 0 <-> v = a \/ v = b).
Proof.
  intros Hab Hv.
  assert (a ∈ replicate n 0) as ->%elem_of_replicate_inv by (apply Hv; auto).
  assert (b ∈ replicate n 0) as ->%elem_of_replicate_inv by (apply Hv; auto).
  done.
Qed.

(** A column over 0 and 1 that still has two values after renumbering
    holds both of them and is left as it is. *)
Lemma arrange_categories_bits (l : list nat) :
  Forall (fun v => v <= 1) l ->
  length (np_unique (arrange_categories l)) = 2 ->
  arrange_categories l = l.
Proof.
  intros Hl Hlen.
  destruct (np_unique_bits l Hl) as [Hu | [Hu | [Hu | Hu]]];
    rewrite (arrange_categories_with _ _ Hu) in *.
  - assert (l = []) as ->; [| done].
    destruct l as [| v l]; [done |].
    assert (v ∈ np_unique (v :: l)) as Hv
      by (apply np_unique_elem_of, elem_of_cons; auto).
    rewrite Hu in Hv. by apply elem_of_nil in Hv.
  - exfalso.
    assert (Hz : (fun v => index_of v [0]) <$> l = replicate (length l) 0).
    { assert (Hzero : Forall (fun v => v = 0) l).
      { rewrite Forall_forall. intros v Hv%np_unique_elem_of.
        rewrite Hu in Hv. by apply list_elem_of_singleton in Hv. }
      clear -Hzero. induction Hzero as [| v l -> _ IH]; [done |].
      by rewrite fmap_cons, IH. }
    rewrite Hz in Hlen.
    destruct (two_unique_values _ Hlen) as (a & b & Hab & Hv).
    by apply (replicate_one_value (length l) a b).
  - exfalso.
    assert (Hz : (fun v => index_of v [1]) <$> l = replicate (length l) 0).
    { assert (Hone : Forall (fun v => v = 1) l).
      { rewrite Forall_forall. intros v Hv%np_unique_elem_of.
        rewrite Hu in Hv. by apply list_elem_of_singleton in Hv. }
      clear -Hone. induction Hone as [| v l -> _ IH]; [done |].
      by rewrite fmap_cons, IH. }
    rewrite Hz in Hlen.
    destruct (two_unique_values _ Hlen) as (a & b & Hab & Hv).
    by apply (replicate_one_value (length l) a b).
  - clear -Hl. induction Hl as [| v l Hv _ IH]; [done |].
    rewrite fmap_cons, IH. f_equal.
    assert (v = 0 \/ v = 1) as [-> | ->] by lia; done.
Qed.

(** A data set built from a column of ones has labels 0. *)
Lemma arrange_categories_ones (n : nat) :
  arrange_categories (replicate n 1) = replicate n 0.
Proof.
  destruct n as [| n]; [done |].
  assert (Hin : forall v, v ∈ np_unique (replicate (S n) 1) <-> v = 1).
  { intros v. rewrite np_unique_elem_of, elem_of_replicate. intuition lia. }
  assert (Hu : np_unique (replicate (S n) 1) = [1]).
  { destruct (np_unique_bits (replicate (S n) 1)) as [Hu | [Hu | [Hu | Hu]]];
      [apply Forall_replicate; lia | | | done |]; exfalso.
    - assert (1 ∈ np_unique (replicate (S n) 1)) as H1 by by apply Hin.
      rewrite Hu in H1. by apply elem_of_nil in H1.
    - assert (0 = 1); [| done].
      apply Hin. rewrite Hu. by apply list_elem_of_singleton.
    - assert (0 = 1); [| done].
      apply Hin. rewrite Hu. apply elem_of_cons. auto. }
  rewrite (arrange_categories_with _ _ Hu), fmap_replicate. done.
Qed.

(** The labels of the real cells after [labels[known_doublets] += 1], for
    an unlabelled data set. *)
Lemma mask_incr_zeros (mask : list bool) (l : list nat) (l' : list nat) :
  Forall (fun v => v = 0) l -> mask_incr mask l = Ok l' ->
  length mask = length l /\
  l' = (fun m : bool => if m then 1 else 0) <$> mask.
Proof.
  unfold mask_incr. intros Hl.
  destruct (decide (length mask = length l)) as [Hlen | ?]; [| done].
  intros [= <-]. split; [done |].
  revert mask Hlen. induction Hl as [| v l -> _ IH]; intros [| m mask] Hlen;
    simplify_eq/=; [done |].
  f_equal. by apply IH.
Qed.

Lemma merge_datasets_Ok_inv (scvi_data : GeneExpressionDataset)
    (known_doublets : list bool) (X_doublets : matrix) (tr : list event)
    (classifier_data : GeneExpressionDataset) :
  merge_datasets scvi_data known_doublets X_doublets
  = (tr, Ok classifier_data) ->
  exists scvi_labels,
    mask_incr known_doublets (labels scvi_data) = Ok scvi_labels /\
    X classifier_data = X scvi_data ++ X_doublets /\
    labels classifier_data
    = arrange_categories (scvi_labels ++ replicate (length X_doublets) 1) /\
    length (np_unique (labels classifier_data)) = 2.
Proof.
  unfold merge_datasets. intros H.
  apply bind_Ok_inv in H as (t1 & scvi_labels & t2 & Hmask & H & ->).
  apply bind_Ok_inv in H as (t3 & [] & t4 & Hassert & H & ->).
  unfold lift, py_assert, ret in *.
  destruct (Nat.eqb_spec
              (length (np_unique (labels (concat_datasets
                 {| X := X scvi_data; labels := scvi_labels; n_labels := 2;
                    gene_names := gene_names scvi_data |}
                 {| X := X (make_gene_expression_dataset X_doublets
                                                         (gene_names scvi_data));
                    labels := S <$> labels (make_gene_expression_dataset
                                X_doublets (gene_names scvi_data));
                    n_labels := 2;
                    gene_names := gene_names (make_gene_expression_dataset
                                    X_doublets (gene_names scvi_data)) |}))))
              2) as [Htwo | ?]; [| done].
  simplify_eq/=. exists scvi_labels. split; [done |]. split; [done |].
  rewrite arrange_categories_ones, fmap_replicate in Htwo |- *. done.
Qed.

(** C1, as stated, fails: a real cell that the known-doublets file flags
    carries label 1.  With the three sample cells, the first one flagged,
    and one synthetic doublet, the labels of the classifier data are
    1, 0, 0, 1. *)
Lemma known_doublet_cell_labelled_one :
  ~ (forall (scvi_data : GeneExpressionDataset) (known_doublets : list bool)
            (X_doublets : matrix) (tr : list event)
            (classifier_data : GeneExpressionDataset),
       Forall (fun v => v = 0) (labels scvi_data) ->
       length (labels scvi_data) = length (X scvi_data) ->
       merge_datasets scvi_data known_doublets X_doublets
       = (tr, Ok classifier_data) ->
       forall r, r < length (X scvi_data) ->
                 labels classifier_data !! r = Some 0).
Proof.
  intros H.
  specialize (H sample_dataset [true; false; false] [[3; 2; 3]%Q] []
                (concat_datasets
                   {| X := X sample_dataset; labels := [1; 0; 0];
                      n_labels := 2; gene_names := gene_names sample_dataset |}
                   {| X := [[3; 2; 3]%Q]; labels := [1]; n_labels := 2;
                      gene_names := gene_names sample_dataset |})).
  assert (Hbad : labels (concat_datasets
                   {| X := X sample_dataset; labels := [1; 0; 0];
                      n_labels := 2; gene_names := gene_names sample_dataset |}
                   {| X := [[3; 2; 3]%Q]; labels := [1]; n_labels := 2;
                      gene_names := gene_names sample_dataset |}) !! 0
                 = Some 0).
  { apply H; [repeat constructor | reflexivity | reflexivity | simpl; lia]. }
  vm_compute in Hbad. discriminate Hbad.
Qed.

(** C1, amended: in the data set that [main] hands to the classifier, built
    from an unlabelled input, every real cell that is not flagged as a known
    doublet carries label 0, every real cell that is flagged and every
    synthetic doublet carries label 1, and the label values that occur are
    exactly 0 and 1, two values: line 258 stops every other run. *)
Theorem classifier_labels
    (scvi_data : GeneExpressionDataset) (known_doublets : list bool)
    (X_doublets : matrix) (tr : list event)
    (classifier_data : GeneExpressionDataset) :
  Forall (fun v => v = 0) (labels scvi_data) ->
  length (labels scvi_data) = length (X scvi_data) ->
  merge_datasets scvi_data known_doublets X_doublets
  = (tr, Ok classifier_data) ->
  let num_cells := length (X scvi_data) in
  X classifier_data = X scvi_data ++ X_doublets /\
  length (labels classifier_data) = num_cells + length X_doublets /\
  length known_doublets = num_cells /\
  (forall r (flagged : bool), known_doublets !! r = Some flagged ->
     labels classifier_data !! r = Some (if flagged then 1 else 0)) /\
  (forall d, d < length X_doublets ->
     labels classifier_data !! (num_cells + d) = Some 1) /\
  (forall v, v ∈ labels classifier_data <-> v = 0 \/ v = 1) /\
  length (np_unique (labels classifier_data)) = 2.
Proof.
  intros Hzero Hrows Hrun num_cells.
  apply merge_datasets_Ok_inv in Hrun
    as (scvi_labels & Hmask & HX & Hlabels & Htwo).
  apply (mask_incr_zeros _ _ _ Hzero) in Hmask as [Hlen ->].
  set (bits := (fun m : bool => if m then 1 else 0) <$> known_doublets) in *.
  set (L0 := bits ++ replicate (length X_doublets) 1) in *.
  assert (Hbits : Forall (fun v => v <= 1) L0).
  { apply Forall_app. split.
    - apply Forall_fmap, Forall_true. intros []; simpl; lia.
    - apply Forall_replicate. lia. }
  assert (Hid : labels classifier_data = L0).
  { rewrite Hlabels. apply arrange_categories_bits; [done |].
    by rewrite <- Hlabels. }
  assert (Hlb : length bits = num_cells).
  { unfold bits. rewrite length_fmap. unfold num_cells. lia. }
  split; [done |]. split; [| split; [| split; [| split; [| split]]]].
  - rewrite Hid. unfold L0. rewrite length_app, length_replicate. lia.
  - unfold num_cells. lia.
  - intros r flagged Hr. rewrite Hid. unfold L0.
    rewrite lookup_app_l by (rewrite Hlb; apply lookup_lt_Some in Hr;
                             unfold num_cells; lia).
    unfold bits. by rewrite list_lookup_fmap, Hr.
  - intros d Hd. rewrite Hid. unfold L0.
    rewrite lookup_app_r by lia.
    apply lookup_replicate_2. lia.
  - intros v. split.
    + intros Hv. rewrite Hid in Hv. rewrite Forall_forall in Hbits.
      specialize (Hbits v Hv). simpl in Hbits. lia.
    + destruct (two_unique_values _ Htwo) as (a & b & Hab & Hv).
      assert (Ha : a <= 1).
      { rewrite Forall_forall in Hbits. apply (Hbits a).
        rewrite <- Hid. apply Hv. auto. }
      assert (Hb : b <= 1).
      { rewrite Forall_forall in Hbits. apply (Hbits b).
        rewrite <- Hid. apply Hv. auto. }
      intros [-> | ->]; apply Hv; lia.
  - done.
Qed.

Lemma classifier_labels_witness :
  exists classifier_data,
    merge_datasets sample_dataset [true; false; false] [[3; 2; 3]%Q]
    = ([], Ok classifier_data) /\
    labels classifier_data = [1; 0; 0; 1] /\
    length (np_unique (labels classifier_data)) = 2.
Proof.
  eexists. split; [reflexivity |]. split; [reflexivity |].
  eapply (classifier_labels sample_dataset [true; false; false]
            [[3; 2; 3]%Q] []).
  - repeat constructor.
  - reflexivity.
  - reflexivity.
Defined.

(** ** The threshold (lines 349-361) *)

#[global] Instance Qle_total : Total Qle.
Proof. intros x y. destruct (Qlt_le_dec x y); [left | right]; lra. Qed.

#[global] Instance Qle_trans' : Transitive Qle.
Proof. intros x y z. apply Qle_trans. Qed.

#[global] Instance score_le_total (a : list Q) : Total (score_le a).
Proof. intros i j. apply Qle_total. Qed.

#[global] Instance score_le_trans (a : list Q) : Transitive (score_le a).
Proof. intros i j k. apply Qle_trans. Qed.

Section ranks.
Implicit Types (a s : list Q) (f g : Q -> bool) (v w x : Q).

Lemma count_app f a1 a2 : count f (a1 ++ a2) = count f a1 + count f a2.
Proof. induction a1 as [| x a1 IH]; simpl; [done | rewrite IH; lia]. Qed.

Lemma count_Permutation f a1 a2 : a1 ≡ₚ a2 -> count f a1 = count f a2.
Proof. induction 1; simpl; lia. Qed.

Lemma count_mono f g a :
  (forall x, f x = true -> g x = true) -> count f a <= count g a.
Proof.
  intros Hfg. induction a as [| x a IH]; simpl; [done |].
  destruct (f x) eqn:Hf; [rewrite (Hfg x Hf) | destruct (g x)]; lia.
Qed.

Lemma count_none f a : Forall (fun x => f x = false) a -> count f a = 0.
Proof. induction 1 as [| x a Hx _ IH]; simpl; [done | by rewrite Hx]. Qed.

Lemma count_all f a :
  Forall (fun x => f x = true) a -> count f a = length a.
Proof.
  induction 1 as [| x a Hx _ IH]; simpl; [done | by rewrite Hx, IH].
Qed.

Lemma count_le_length f a : count f a <= length a.
Proof. induction a as [| x a IH]; simpl; [done | destruct (f x); lia]. Qed.

Lemma count_miss f a x : x ∈ a -> f x = false -> count f a < length a.
Proof.
  induction 1 as [x a | x y a _ IH]; intros Hx; simpl.
  - rewrite Hx. pose proof (count_le_length f a). lia.
  - specialize (IH Hx). destruct (f y); lia.
Qed.

Lemma below_true v x : below v x = true <-> (x < v)%Q.
Proof.
  unfold below. destruct (Qlt_le_dec x v); split; try done.
  intros. lra.
Qed.

Lemma at_most_true v x : at_most v x = true <-> (x <= v)%Q.
Proof.
  unfold at_most. destruct (Qlt_le_dec v x); split; try done.
  intros. lra.
Qed.

Lemma below_false v x : below v x = false <-> (v <= x)%Q.
Proof.
  unfold below. destruct (Qlt_le_dec x v); split; try done.
  intros. lra.
Qed.

Lemma has_rank_Permutation a1 a2 p v :
  a1 ≡ₚ a2 -> has_rank a1 p v -> has_rank a2 p v.
Proof.
  unfold has_rank. intros H.
  by rewrite (count_Permutation _ _ _ H), (count_Permutation _ _ _ H).
Qed.

(** Two values of one rank are equal. *)
Lemma has_rank_unique a p v w :
  has_rank a p v -> has_rank a p w -> (v == w)%Q.
Proof.
  intros [Hv1 Hv2] [Hw1 Hw2].
  destruct (Q_dec v w) as [[Hlt | Hgt] | Heq]; [| | done]; exfalso.
  - assert (count (at_most v) a <= count (below w) a); [| lia].
    apply count_mono. intros x Hx%at_most_true. apply below_true. lra.
  - assert (count (at_most w) a <= count (below v) a); [| lia].
    apply count_mono. intros x Hx%at_most_true. apply below_true. lra.
Qed.

(** In a sorted list the entry at position [p] has rank [p]. *)
Lemma sorted_has_rank s p x :
  StronglySorted Qle s -> s !! p = Some x -> has_rank s p x.
Proof.
  intros Hs. revert p.
  induction Hs as [| y s Hs IH Hy]; intros p Hp; [done |].
  destruct p as [| p]; simplify_eq/=; unfold has_rank; simpl.
  - split.
    + rewrite count_none; [| eapply Forall_impl; [exact Hy |]].
      * replace (below x x) with false; [lia |].
        symmetry. apply below_false. lra.
      * intros z Hz. by apply below_false.
    + replace (at_most x x) with true; [lia |].
      symmetry. apply at_most_true. lra.
  - destruct (IH p Hp) as [H1 H2].
    assert (Hyx : (y <= x)%Q).
    { rewrite Forall_forall in Hy. apply Hy.
      by eapply list_elem_of_lookup_2. }
    split.
    + destruct (below x y); lia.
    + replace (at_most x y) with true; [lia |].
      symmetry. by apply at_most_true.
Qed.

(** The largest of the [k] smallest entries has rank [k - 1]. *)
Lemma split_max_has_rank (vals rest : list Q) (m : Q) :
  m ∈ vals ->
  Forall (fun v => v <= m)%Q vals ->
  Forall (fun r => m <= r)%Q rest ->
  has_rank (vals ++ rest) (length vals - 1) m.
Proof.
  intros Hm Hvals Hrest. split; rewrite count_app.
  - rewrite (count_none _ rest).
    + assert (count (below m) vals < length vals); [| lia].
      apply count_miss with m; [done |]. apply below_false. lra.
    + eapply Forall_impl; [exact Hrest |]. intros r Hr. by apply below_false.
  - rewrite (count_all _ vals).
    + assert (0 < length vals); [| lia].
      destruct Hm; simpl; lia.
    + eapply Forall_impl; [exact Hvals |]. intros v Hv.
      by apply at_most_true.
Qed.

Lemma foldl_Qmax_spec (x : Q) (a : list Q) :
  foldl Qmax x a ∈ x :: a /\
  Forall (fun v => v <= foldl Qmax x a)%Q (x :: a).
Proof.
  revert x. induction a as [| y a IH]; intros x; simpl.
  - split; [apply elem_of_cons; auto |]. constructor; [lra | done].
  - destruct (IH (Qmax x y)) as [Hin Hall].
    apply Forall_cons in Hall as [Hm Hall].
    assert (Hx : (x <= Qmax x y)%Q /\ (y <= Qmax x y)%Q /\
                 (Qmax x y = x \/ Qmax x y = y)).
    { unfold Qmax. destruct (Qlt_le_dec x y); repeat split; auto; lra. }
    destruct Hx as (Hx1 & Hx2 & Hx3). split.
    + apply elem_of_cons in Hin as [-> | Hin].
      * destruct Hx3 as [-> | ->]; rewrite !elem_of_cons; auto.
      * rewrite !elem_of_cons; auto.
    + constructor; [lra |]. constructor; [lra | exact Hall].
Qed.
End ranks.

Lemma score_of_lookup (a : list Q) (i : nat) :
  i < length a -> a !! i = Some (score_of a i).
Proof.
  intros Hi. unfold score_of.
  by destruct (lookup_lt_is_Some_2 a i Hi) as [x ->].
Qed.

Lemma score_of_seq (a : list Q) : score_of a <$> seq 0 (length a) = a.
Proof.
  apply list_eq. intros i. rewrite list_lookup_fmap.
  destruct (decide (i < length a)) as [Hi | Hi].
  - rewrite (lookup_seq_lt _ _ _ Hi). simpl. symmetry.
    by apply score_of_lookup.
  - rewrite lookup_seq_ge by lia. symmetry. apply lookup_ge_None. lia.
Qed.

Lemma take_at_scores (a : list Q) (idx : list nat) :
  Forall (fun i => i < length a) idx ->
  take_at a idx = Ok (score_of a <$> idx).
Proof.
  intros Hidx. unfold take_at.
  replace (mapM (fun i => a !! i) idx) with (Some (score_of a <$> idx));
    [done |].
  symmetry. apply mapM_Some_2, Forall2_fmap_r, Forall_Forall2_diag.
  eapply Forall_impl; [exact Hidx |]. intros i Hi. by apply score_of_lookup.
Qed.

Lemma StronglySorted_lookup_le {A : Type} (R : relation A) (l : list A)
    (p q : nat) (x y : A) :
  StronglySorted R l -> l !! p = Some x -> l !! q = Some y -> p < q -> R x y.
Proof.
  intros Hs. revert p q.
  induction Hs as [| z l Hs IH Hz]; intros p q Hp Hq Hpq; [done |].
  destruct q as [| q]; [lia |]. destruct p as [| p]; simplify_eq/=.
  - rewrite Forall_forall in Hz. apply Hz. by eapply list_elem_of_lookup_2.
  - apply (IH p q); [done | done | lia].
Qed.

(** A sort of the positions by score meets the contract of
    [np.argpartition] at every [k]. *)
Lemma argsort_partitioned (a : list Q) (k : nat) :
  partitioned_at a k (merge_sort (score_le a) (seq 0 (length a))).
Proof.
  split; [apply merge_sort_Permutation |].
  intros p q i j Hp Hq Hpk Hkq.
  destruct (decide (p = q)) as [-> | Hne].
  - simplify_eq. apply Qle_refl.
  - apply (StronglySorted_lookup_le (score_le a)
             (merge_sort (score_le a) (seq 0 (length a))) p q i j);
      [| done | done | lia].
    apply StronglySorted_merge_sort; apply _.
Qed.

(** For every result of [np.argpartition(a, k)] that meets the contract,
    the largest of the scores at its first [k] positions is the [k]-th
    smallest score. *)
Lemma partition_max_kth_smallest (a : list Q) (k : nat) (idx : list nat) :
  partitioned_at a k idx -> 0 < k -> k < length a ->
  exists m s,
    (take_at a (take k idx) = Ok (score_of a <$> take k idx)) /\
    np_max (score_of a <$> take k idx) = Ok m /\
    kth_smallest a k = Some s /\ (m == s)%Q.
Proof.
  intros [Hperm Hpart] Hk Hkn.
  assert (Hlen : length idx = length a)
    by (by rewrite Hperm, length_seq).
  assert (Hin : Forall (fun i => i < length a) idx).
  { rewrite Forall_forall. intros i Hi. rewrite Hperm in Hi.
    apply elem_of_seq in Hi. lia. }
  set (vals := score_of a <$> take k idx).
  set (rest := score_of a <$> drop k idx).
  assert (Ha : a ≡ₚ vals ++ rest).
  { unfold vals, rest. rewrite <- fmap_app, take_drop.
    rewrite Hperm. by rewrite score_of_seq. }
  assert (Hlv : length vals = k).
  { unfold vals. rewrite length_fmap, length_take_le; lia. }
  destruct vals as [| v0 vals'] eqn:Hvals; [simpl in Hlv; lia |].
  destruct (foldl_Qmax_spec v0 vals') as [Hm Hall].
  set (m := foldl Qmax v0 vals') in *.
  assert (Hrest : Forall (fun r => m <= r)%Q rest).
  { rewrite <- Hvals in Hm. unfold vals in Hm.
    apply list_elem_of_fmap in Hm as (i & Hmi & Hi).
    apply elem_of_take in Hi as (p & Hp & Hpk).
    rewrite Forall_forall. intros r Hr. unfold rest in Hr.
    apply list_elem_of_fmap in Hr as (j & -> & Hj).
    apply list_elem_of_lookup in Hj as (q & Hq). rewrite lookup_drop in Hq.
    rewrite Hmi. apply (Hpart p (k + q) i j); [done | done | lia | lia]. }
  pose proof (split_max_has_rank (v0 :: vals') rest m Hm Hall Hrest) as Hrank.
  rewrite Hlv in Hrank.
  apply (has_rank_Permutation _ a) in Hrank; [| by symmetry].
  assert (Hsorted : StronglySorted Qle (sorted_scores a))
    by (apply StronglySorted_merge_sort; apply _).
  assert (Hsperm : sorted_scores a ≡ₚ a) by apply merge_sort_Permutation.
  destruct (lookup_lt_is_Some_2 (sorted_scores a) (k - 1)) as [s Hs].
  { rewrite Hsperm. lia. }
  pose proof (sorted_has_rank _ _ _ Hsorted Hs) as Hrank'.
  apply (has_rank_Permutation _ a) in Hrank'; [| done].
  exists m, s. split; [| split; [| split]].
  - rewrite <- Hvals. apply take_at_scores. by apply Forall_take.
  - done.
  - exact Hs.
  - by apply (has_rank_unique a (k - 1)).
Qed.

Lemma np_argpartition_in_range (a : list Q) (kth : Z) :
  (0 <= kth < Z.of_nat (length a))%Z ->
  np_argpartition a kth = Ok (merge_sort (score_le a) (seq 0 (length a))).
Proof.
  intros Hk. unfold np_argpartition.
  destruct (Z.ltb_spec kth 0) as [? | _]; [lia |]. cbv zeta.
  destruct (Z.ltb_spec kth 0) as [? | _]; [lia |].
  destruct (Z.leb_spec (Z.of_nat (length a)) kth) as [? | _]; [lia |].
  by rewrite andb_false_r.
Qed.

Lemma np_argpartition_out_of_range (a : list Q) (kth : Z) :
  a <> [] -> (Z.of_nat (length a) <= kth)%Z ->
  np_argpartition a kth = Raise ValueError.
Proof.
  intros Ha Hk. unfold np_argpartition.
  destruct (Z.ltb_spec kth 0) as [? | _]; [lia |]. cbv zeta.
  destruct (Z.ltb_spec kth 0) as [? | _]; [lia |].
  destruct (Z.leb_spec (Z.of_nat (length a)) kth) as [_ | ?]; [| lia].
  by destruct a.
Qed.

Lemma np_gt_lookup (a : list Q) (t : Q) (i : nat) (s : Q) :
  a !! i = Some s ->
  exists b : bool, np_gt a t !! i = Some b /\ (b = true <-> (t < s)%Q).
Proof.
  intros Hs. unfold np_gt. rewrite list_lookup_fmap, Hs. simpl.
  destruct (Qlt_le_dec t s); eexists; (split; [reflexivity |]);
    split; try done. intros. lra.
Qed.

(** With an expected number [e] of doublets, [0 < e < n] for [n] real
    cells, the threshold is the [n - e]-th smallest score of the real cells:
    the largest of the [n - e] smallest. *)
Lemma select_threshold_kth_smallest (e : Z) (order_score : list Q)
    (num_cells : nat) :
  let loner_scores := take num_cells order_score in
  let k := length loner_scores - Z.to_nat e in
  (0 < e < Z.of_nat (length loner_scores))%Z ->
  exists tr threshold s,
    select_threshold (Some e) order_score num_cells = (tr, Ok threshold) /\
    Forall (fun ev => exists msg, ev = Print msg) tr /\
    kth_smallest loner_scores k = Some s /\ (threshold == s)%Q.
Proof.
  intros loner_scores k He.
  assert (Hk : (Z.of_nat (length loner_scores) - e = Z.of_nat k)%Z)
    by (unfold k; lia).
  assert (Hk0 : 0 < k) by (unfold k; lia).
  assert (Hkn : k < length loner_scores) by (unfold k; lia).
  destruct (partition_max_kth_smallest loner_scores k _
              (argsort_partitioned loner_scores k) Hk0 Hkn)
    as (m & s & Htake & Hmax & Hs & Hms).
  unfold select_threshold. fold loner_scores. rewrite Hk.
  destruct (Nat.eqb_spec (length loner_scores) 0) as [? | _]; [lia |].
  assert (Hrest :
    (py_assert (0 <? Z.of_nat k)%Z ;;;
     idx <- lift (np_argpartition loner_scores (Z.of_nat k)) ;;
     smallest <- lift (take_at loner_scores (take (Z.to_nat (Z.of_nat k)) idx)) ;;
     lift (np_max smallest)) = ([], Ok m)).
  { destruct (Z.ltb_spec 0 (Z.of_nat k)) as [_ | ?]; [| lia].
    rewrite np_argpartition_in_range, Nat2Z.id by lia.
    unfold py_assert, ret, lift, bind. cbv beta iota.
    by rewrite Htake, Hmax. }
  destruct (Qlt_le_dec (1 # 2)
              (inject_Z e / inject_Z (Z.of_nat (length loner_scores)))).
  - exists [Print half_warning], m, s.
    rewrite (bind_Ok _ _ [Print half_warning] tt eq_refl), Hrest.
    repeat split; [| done | done]. repeat constructor. by eexists.
  - exists [], m, s.
    rewrite (bind_Ok _ _ [] tt eq_refl), Hrest.
    repeat split; done.
Qed.

(** ** The doublet flags (lines 379-381) *)

Lemma np_where_elem_of (mask : list bool) (i : nat) :
  i ∈ np_where mask <-> mask !! i = Some true.
Proof.
  unfold np_where. rewrite list_elem_of_filter, elem_of_seq. split.
  - by intros [H _].
  - intros H. split; [done |]. apply lookup_lt_Some in H. lia.
Qed.

Lemma inserts_true_length (idxs : list nat) (a : list bool) :
  length (foldr (fun i acc => <[i := true]> acc) a idxs) = length a.
Proof.
  induction idxs as [| j idxs IH]; simpl; [done |].
  by rewrite length_insert.
Qed.

Lemma inserts_true_lookup (idxs : list nat) (a : list bool) (i : nat)
    (b : bool) :
  a !! i = Some b ->
  foldr (fun i acc => <[i := true]> acc) a idxs !! i
  = Some (b || bool_decide (i ∈ idxs)).
Proof.
  intros Hb. induction idxs as [| j idxs IH]; simpl.
  - rewrite Hb. by rewrite orb_false_r.
  - destruct (decide (j = i)) as [-> | Hne].
    + rewrite list_lookup_insert_eq
        by (rewrite inserts_true_length; by eapply lookup_lt_Some).
      rewrite bool_decide_eq_true_2 by (apply elem_of_cons; auto).
      by rewrite orb_true_r.
    + rewrite list_lookup_insert_ne, IH by done. f_equal. f_equal.
      apply bool_decide_ext. rewrite elem_of_cons. intuition congruence.
Qed.

Lemma set_true_Ok_inv (idxs : list nat) (a r : list bool) :
  set_true idxs a = Ok r ->
  length r = length a /\
  forall i b, a !! i = Some b ->
              r !! i = Some (b || bool_decide (i ∈ idxs)).
Proof.
  unfold set_true. destruct (forallb _ _); [| done]. intros [= <-]. split.
  - apply inserts_true_length.
  - intros i b. apply inserts_true_lookup.
Qed.

(** The flags after the update: no flag is cleared. *)
Lemma update_is_doublet_keeps (known_doublets is_loner_doublet : list bool)
    (num_cells : nat) (is_doublet : list bool) :
  update_is_doublet known_doublets is_loner_doublet num_cells = Ok is_doublet ->
  length is_doublet = length known_doublets /\
  forall i, known_doublets !! i = Some true -> is_doublet !! i = Some true.
Proof.
  unfold update_is_doublet.
  destruct (np_and _ _) as [new_mask | e]; [| done].
  intros [Hlen Hget]%set_true_Ok_inv. split; [done |].
  intros i Hi. by rewrite (Hget i true Hi).
Qed.

(** The flags after the update, when there is a call for every real cell:
    a cell is flagged when it was a known doublet or is called now. *)
Lemma update_is_doublet_lookup (known_doublets is_loner_doublet : list bool)
    (num_cells : nat) (is_doublet : list bool) :
  length known_doublets = num_cells ->
  num_cells <= length is_loner_doublet ->
  update_is_doublet known_doublets is_loner_doublet num_cells = Ok is_doublet ->
  forall i (k l : bool),
    known_doublets !! i = Some k -> is_loner_doublet !! i = Some l ->
    is_doublet !! i = Some (k || l).
Proof.
  intros Hkd Hloner. unfold update_is_doublet, np_and.
  destruct (decide (length (negb <$> known_doublets)
                    = length (take num_cells is_loner_doublet))) as [_ | Hne].
  2: { exfalso. apply Hne. rewrite length_fmap, length_take_le; lia. }
  intros [Hlen Hget]%set_true_Ok_inv i k l Hk Hl.
  rewrite (Hget i k Hk). f_equal.
  assert (Hi : i < num_cells) by (apply lookup_lt_Some in Hk; lia).
  assert (Hmask : zip_with andb (negb <$> known_doublets)
                           (take num_cells is_loner_doublet) !! i
                  = Some (negb k && l)).
  { rewrite lookup_zip_with, list_lookup_fmap, Hk. simpl.
    by rewrite lookup_take_lt, Hl by done. }
  destruct (bool_decide_reflect
              (i ∈ np_where (zip_with andb (negb <$> known_doublets)
                                      (take num_cells is_loner_doublet))))
    as [Hin | Hnin].
  - apply np_where_elem_of in Hin. rewrite Hmask in Hin.
    destruct k, l; by simplify_eq/=.
  - rewrite np_where_elem_of, Hmask in Hnin.
    destruct k, l; simpl in *; done.
Qed.

(** With a call for every real cell the update raises nothing. *)
Lemma update_is_doublet_Ok (known_doublets is_loner_doublet : list bool)
    (num_cells : nat) :
  length known_doublets = num_cells ->
  num_cells <= length is_loner_doublet ->
  exists is_doublet,
    update_is_doublet known_doublets is_loner_doublet num_cells
    = Ok is_doublet.
Proof.
  intros Hkd Hloner. unfold update_is_doublet, np_and.
  destruct (decide (length (negb <$> known_doublets)
                    = length (take num_cells is_loner_doublet))) as [He | Hne].
  2: { exfalso. apply Hne. rewrite length_fmap, length_take_le; lia. }
  unfold set_true.
  replace (forallb _ _) with true; [by eexists |].
  symmetry. apply forallb_forall. intros i Hi%list_elem_of_In.
  apply np_where_elem_of, lookup_lt_Some in Hi.
  rewrite length_zip_with, length_fmap in Hi.
  apply Nat.ltb_lt. lia.
Qed.

(** ** Traces of [main] *)

Lemma saved_app (path : string) (t1 t2 : list event) :
  saved path (t1 ++ t2) = saved path t1 ++ saved path t2.
Proof.
  induction t1 as [| ev t1 IH]; simpl; [done |].
  destruct ev; try done. destruct (String.eqb path0 path); [| done].
  simpl. by rewrite IH.
Qed.

Lemma quiet_saved (path : string) (tr : list event) :
  quiet tr -> saved path tr = [].
Proof.
  induction 1 as [| ev tr [Hs _] _ IH]; simpl; [done |].
  by destruct ev.
Qed.

Lemma quiet_doublets_generated (tr : list event) :
  quiet tr -> doublets_generated tr = 0.
Proof.
  induction 1 as [| ev tr [_ Hg] _ IH]; simpl; [done |].
  by rewrite Hg, IH.
Qed.

Lemma quiet_app (t1 t2 : list event) : quiet t1 -> quiet t2 -> quiet (t1 ++ t2).
Proof. intros. by apply Forall_app. Qed.

Lemma eqb_append_l (d a b : string) :
  String.eqb (d ++ a) (d ++ b) = String.eqb a b.
Proof.
  induction d as [| c d IH]; simpl; [done |]. by rewrite Ascii.eqb_refl.
Qed.

Lemma path_in_eqb (dir f1 f2 : string) :
  String.eqb (path_in dir f1) (path_in dir f2) = String.eqb f1 f2.
Proof. unfold path_in. by rewrite eqb_append_l. Qed.

Lemma ensure_out_dir_trace (W : World) (o : Options) :
  quiet (trace_of (ensure_out_dir W o)).
Proof.
  unfold ensure_out_dir. destruct (isdir W (out_dir o)); repeat constructor.
Qed.

Lemma load_data_Ok_inv (W : World) (data_file : string) (tr : list event)
    (d : GeneExpressionDataset) :
  load_data W data_file = (tr, Ok (Some d)) ->
  d = read_dataset W data_file /\ quiet tr.
Proof.
  unfold load_data.
  destruct (String.eqb _ ".loom"); [| destruct (String.eqb _ ".h5ad")];
    intros [= <- <-]; split; try done; repeat constructor.
Qed.

Lemma split_known_Ok_inv (W : World) (o : Options)
    (scvi_data : GeneExpressionDataset) (tr : list event)
    (known : list bool) (known_data : option GeneExpressionDataset)
    (singlets : GeneExpressionDataset) :
  split_known W o scvi_data = (tr, Ok (known, known_data, singlets)) ->
  quiet tr /\ length known = length (X scvi_data) /\
  known = match known_doublets_file o with
          | Some path => read_csv W path
          | None => replicate (length (X scvi_data)) false
          end.
Proof.
  unfold split_known. destruct (known_doublets_file o) as [path |].
  - simpl.
    destruct (Nat.eqb_spec (length (read_csv W path)) (length (X scvi_data)))
      as [Hlen | ?]; [| done].
    simpl. intros [= <- <- <- <-]. repeat split; [| done]. repeat constructor.
  - intros [= <- <- <- <-]. unfold num_rows. rewrite length_replicate.
    repeat split. constructor.
Qed.

Lemma vae_stage_Ok (o : Options) (model_json_file : string) :
  exists tr, vae_stage o model_json_file = (tr, Ok tt) /\ quiet tr.
Proof.
  unfold vae_stage. destruct (seed o) as [s |];
    [destruct (String.eqb s "") |]; simpl; eexists;
    (split; [reflexivity | repeat constructor]).
Qed.

Lemma classifier_stage_Ok (o : Options) :
  exists tr, classifier_stage o = (tr, Ok tt) /\ quiet tr.
Proof. eexists. split; [reflexivity | repeat constructor]. Qed.

Lemma simulate_one_saves_nothing (W : World) (o : Options)
    (singlets : GeneExpressionDataset) (depths : list Q) (di : nat)
    (m m' : matrix) (tr : list event) (path : string) :
  simulate_one W o singlets depths di m = (tr, Ok m') -> saved path tr = [].
Proof.
  unfold simulate_one. intros H.
  apply bind_Ok_inv in H as (t1 & ij & t2 & Hij & H & ->).
  apply bind_Ok_inv in H as (t3 & [] & t4 & Hev & H & ->).
  apply bind_Ok_inv in H as (t5 & row & t6 & Hrow & H & ->).
  unfold lift, emit in *. by simplify_eq/=.
Qed.

Lemma for_each_simulate_saves_nothing (W : World) (o : Options)
    (singlets : GeneExpressionDataset) (depths : list Q) (xs : list nat)
    (m m' : matrix) (tr : list event) (path : string) :
  for_each (simulate_one W o singlets depths) xs m = (tr, Ok m') ->
  saved path tr = [].
Proof.
  revert m tr. induction xs as [| x xs IH]; intros m tr H; simpl in H.
  - unfold ret in H. by simplify_eq/=.
  - apply bind_Ok_inv in H as (t1 & m1 & t2 & H1 & H2 & ->).
    rewrite saved_app, (simulate_one_saves_nothing _ _ _ _ _ _ _ _ _ H1).
    by apply IH in H2.
Qed.

Lemma simulate_doublets_saves_nothing (W : World) (o : Options)
    (singlets : GeneExpressionDataset)
    (known : option GeneExpressionDataset) (g : nat)
    (tr : list event) (m : matrix) (path : string) :
  simulate_doublets W o singlets known g = (tr, Ok m) -> saved path tr = [].
Proof.
  unfold simulate_doublets. rewrite count_doublets_eq. intros H.
  apply bind_Ok_inv in H as (t1 & z & t2 & Hz & H & ->).
  apply bind_Ok_inv in H as (t3 & m0 & t4 & Hm0 & H & ->).
  unfold lift in Hm0. simplify_eq/=.
  by apply (for_each_simulate_saves_nothing _ _ _ _ _ _ _ _ path) in H.
Qed.

Lemma merge_datasets_trace (scvi_data : GeneExpressionDataset)
    (known : list bool) (X_doublets : matrix) (tr : list event)
    (cd : GeneExpressionDataset) :
  merge_datasets scvi_data known X_doublets = (tr, Ok cd) -> tr = [].
Proof.
  unfold merge_datasets. intros H.
  apply bind_Ok_inv in H as (t1 & l & t2 & Hl & H & ->).
  apply bind_Ok_inv in H as (t3 & [] & t4 & Ha & H & ->).
  unfold lift, py_assert, ret, raise in *.
  destruct (Nat.eqb _ 2); by simplify_eq/=.
Qed.

(** The trace of the threshold selection holds nothing but the warning. *)
Lemma select_threshold_trace (expected : option Z) (order_score : list Q)
    (num_cells : nat) :
  quiet (trace_of (select_threshold expected order_score num_cells)).
Proof.
  unfold select_threshold. destruct expected as [e |]; [| constructor].
  set (rest := bind (py_assert _) _).
  assert (Hrest : trace_of rest = []).
  { unfold rest, py_assert. destruct (0 <? _)%Z; [| done].
    unfold ret, lift, bind. destruct (np_argpartition _ _); [| done].
    destruct (take_at _ _); [| done]. by destruct (np_max _). }
  destruct (Nat.eqb _ 0); [constructor |].
  destruct (Qlt_le_dec _ _); unfold bind, emit, ret;
    destruct rest as [t r]; simpl in *; subst t; destruct r;
    repeat constructor.
Qed.

Lemma post_processing_Ok_inv (W : World) (o : Options)
    (cd : GeneExpressionDataset) (num_cells : nat) (known : list bool)
    (tr : list event) :
  post_processing W o cd num_cells known = (tr, Ok tt) ->
  exists t_thr threshold is_doublet,
    select_threshold (expected_number_of_doublets o)
                     (soft_predictions W cd) num_cells
    = (t_thr, Ok threshold) /\
    quiet t_thr /\
    update_is_doublet known (np_gt (soft_predictions W cd) threshold)
                      num_cells = Ok is_doublet /\
    tr = [NpSave (path_in (out_dir o) "scores.npy")
                 (FloatArray (take num_cells (soft_predictions W cd)));
          NpSave (path_in (out_dir o) "scores_sim.npy")
                 (FloatArray (drop num_cells (soft_predictions W cd)))]
         ++ t_thr
         ++ [Plot (path_in (out_dir o) "train_v_test_dist.pdf");
             Plot (path_in (out_dir o) "real_cells_dist.pdf");
             NpSave (path_in (out_dir o) "is_doublet.npy")
                    (BoolArray (take num_cells is_doublet));
             NpSave (path_in (out_dir o) "is_doublet_sim.npy")
                    (BoolArray (drop num_cells is_doublet));
             NpSave (path_in (out_dir o) "preds.npy")
                    (IntArray (take num_cells (hard_predictions W cd)));
             NpSave (path_in (out_dir o) "preds_sim.npy")
                    (IntArray (drop num_cells (hard_predictions W cd)))].
Proof.
  unfold post_processing. intros H.
  apply bind_Ok_inv in H as (t1 & [] & t2 & H1 & H & ->).
  apply bind_Ok_inv in H as (t3 & [] & t4 & H3 & H & ->).
  apply bind_Ok_inv in H as (t_thr & threshold & t5 & Hthr & H & ->).
  apply bind_Ok_inv in H as (t6 & [] & t7 & H6 & H & ->).
  apply bind_Ok_inv in H as (t8 & [] & t9 & H8 & H & ->).
  apply bind_Ok_inv in H as (t10 & is_doublet & t11 & Hupd & H & ->).
  exists t_thr, threshold, is_doublet.
  pose proof (select_threshold_trace (expected_number_of_doublets o)
                (soft_predictions W cd) num_cells) as Hq.
  rewrite Hthr in Hq.
  unfold emit, lift in *. simplify_eq/=. done.
Qed.

Lemma main_Ok_inv (W : World) (o : Options) (args : list string)
    (tr : list event) :
  main W o args = (tr, Ok tt) ->
  exists model_json_file data_file known known_data singlets X_doublets cd
         t_pre t_sim t_mid t_post,
    args = [model_json_file; data_file] /\
    length known = length (X (read_dataset W data_file)) /\
    known = match known_doublets_file o with
            | Some path => read_csv W path
            | None => replicate (length (X (read_dataset W data_file))) false
            end /\
    simulate_doublets W o singlets known_data
                      (num_cols (X (read_dataset W data_file)))
    = (t_sim, Ok X_doublets) /\
    merge_datasets (read_dataset W data_file) known X_doublets = ([], Ok cd) /\
    post_processing W o cd (length (X (read_dataset W data_file))) known
    = (t_post, Ok tt) /\
    tr = t_pre ++ t_sim ++ t_mid ++ t_post /\ quiet t_pre /\ quiet t_mid.
Proof.
  unfold main. intros H.
  apply bind_Ok_inv in H as (t0 & [mj df] & t0' & Hargs & H & ->).
  unfold parse_args, ret, raise in Hargs.
  destruct args as [| a [| b [| c args]]]; simplify_eq.
  cbn [fst snd] in H.
  apply bind_Ok_inv in H as (t1 & [] & t1' & Hens & H & ->).
  apply bind_Ok_inv in H as (t2 & var & t2' & Hload & H & ->).
  apply bind_Ok_inv in H as (t3 & scvi_data & t3' & Hvar & H & ->).
  unfold read_var, ret, raise in Hvar. destruct var as [d |]; simplify_eq.
  apply load_data_Ok_inv in Hload as [-> Hq2].
  apply bind_Ok_inv in H as (t4 & [[known known_data] singlets] & t4'
                             & Hsplit & H & ->).
  cbn [fst snd] in H.
  apply split_known_Ok_inv in Hsplit as (Hq4 & Hlen & Hknown).
  apply bind_Ok_inv in H as (t5 & [] & t5' & Hvae & H & ->).
  destruct (vae_stage_Ok o mj) as (t5'' & Hvae' & Hq5).
  rewrite Hvae' in Hvae. simplify_eq.
  apply bind_Ok_inv in H as (t_sim & X_doublets & t6' & Hsim & H & ->).
  apply bind_Ok_inv in H as (t7 & cd & t7' & Hmerge & H & ->).
  pose proof (merge_datasets_trace _ _ _ _ _ Hmerge) as ->.
  apply bind_Ok_inv in H as (t8 & [] & t_post & Hcls & H & ->).
  destruct (classifier_stage_Ok o) as (t8' & Hcls' & Hq8).
  rewrite Hcls' in Hcls. simplify_eq.
  eexists mj, df, _, known_data, singlets, X_doublets, cd,
          (t1 ++ t2 ++ t4 ++ t5), t_sim, t8, t_post.
  assert (Hq1 : quiet t1).
  { pose proof (ensure_out_dir_trace W o) as Hq. by rewrite Hens in Hq. }
  repeat split; try done.
  - by rewrite <- !app_assoc.
  - by repeat apply quiet_app.
Qed.

(** ** The output arrays (lines 343-388) *)

(** What a finished run has saved is what its post-processing saved. *)
Lemma saved_main (path : string) (t_pre t_sim t_mid t_post : list event)
    (W : World) (o : Options) (singlets : GeneExpressionDataset)
    (known_data : option GeneExpressionDataset) (g : nat) (m : matrix) :
  quiet t_pre -> quiet t_mid ->
  simulate_doublets W o singlets known_data g = (t_sim, Ok m) ->
  saved path (t_pre ++ t_sim ++ t_mid ++ t_post) = saved path t_post.
Proof.
  intros Hpre Hmid Hsim.
  by rewrite !saved_app, (quiet_saved _ _ Hpre), (quiet_saved _ _ Hmid),
    (simulate_doublets_saves_nothing _ _ _ _ _ _ _ path Hsim).
Qed.

Ltac saved_in_post t_thr Hq :=
  rewrite !saved_app, (quiet_saved _ t_thr Hq); cbn [saved app];
  rewrite !path_in_eqb; cbn [String.eqb Ascii.eqb Bool.eqb app].

(** C8: in a run that ends normally with a classifier that returns one
    prediction per row of its data set, [scores.npy], [preds.npy] and
    [is_doublet.npy] are each saved once, with one entry per cell of the
    input matrix. *)
Theorem real_cell_outputs_have_num_cells
    (W : World) (o : Options) (args : list string) (tr : list event) :
  main W o args = (tr, Ok tt) ->
  (forall d, length (soft_predictions W d) = length (X d)) ->
  (forall d, length (hard_predictions W d) = length (X d)) ->
  exists data_file scores preds is_doublet,
    args !! 1 = Some data_file /\
    saved (path_in (out_dir o) "scores.npy") tr = [FloatArray scores] /\
    saved (path_in (out_dir o) "preds.npy") tr = [IntArray preds] /\
    saved (path_in (out_dir o) "is_doublet.npy") tr = [BoolArray is_doublet] /\
    length scores = length (X (read_dataset W data_file)) /\
    length preds = length (X (read_dataset W data_file)) /\
    length is_doublet = length (X (read_dataset W data_file)).
Proof.
  intros Hrun Hsoft Hhard.
  apply main_Ok_inv in Hrun
    as (mj & df & known & known_data & singlets & X_doublets & cd & t_pre
        & t_sim & t_mid & t_post & -> & Hlen & _ & Hsim & Hmerge & Hpost
        & -> & Hpre & Hmid).
  apply post_processing_Ok_inv in Hpost
    as (t_thr & threshold & is_doublet & _ & Hq & Hupd & ->).
  apply merge_datasets_Ok_inv in Hmerge as (_ & _ & HX & _ & _).
  apply update_is_doublet_keeps in Hupd as [Hisd _].
  assert (Hrows : length (X (read_dataset W df)) <= length (X cd))
    by (rewrite HX, length_app; lia).
  eexists df, _, _, _. split; [done |].
  rewrite !(saved_main _ _ _ _ _ _ _ _ _ _ _ Hpre Hmid Hsim).
  split; [by saved_in_post t_thr Hq |].
  split; [by saved_in_post t_thr Hq |].
  split; [by saved_in_post t_thr Hq |].
  rewrite !length_take, Hsoft, Hhard. lia.
Qed.

(** C10: in a run that ends normally with a classifier that returns one
    prediction per row of its data set, [is_doublet_sim.npy] is saved empty,
    and [scores_sim.npy] and [preds_sim.npy] hold one entry per synthetic
    doublet that the run generated. *)
Theorem simulated_cell_outputs
    (W : World) (o : Options) (args : list string) (tr : list event) :
  main W o args = (tr, Ok tt) ->
  (forall d, length (soft_predictions W d) = length (X d)) ->
  (forall d, length (hard_predictions W d) = length (X d)) ->
  exists scores_sim preds_sim,
    saved (path_in (out_dir o) "is_doublet_sim.npy") tr = [BoolArray []] /\
    saved (path_in (out_dir o) "scores_sim.npy") tr
    = [FloatArray scores_sim] /\
    saved (path_in (out_dir o) "preds_sim.npy") tr = [IntArray preds_sim] /\
    length scores_sim = doublets_generated tr /\
    length preds_sim = doublets_generated tr.
Proof.
  intros Hrun Hsoft Hhard.
  apply main_Ok_inv in Hrun
    as (mj & df & known & known_data & singlets & X_doublets & cd & t_pre
        & t_sim & t_mid & t_post & -> & Hlen & _ & Hsim & Hmerge & Hpost
        & -> & Hpre & Hmid).
  apply post_processing_Ok_inv in Hpost
    as (t_thr & threshold & is_doublet & _ & Hq & Hupd & ->).
  apply merge_datasets_Ok_inv in Hmerge as (_ & _ & HX & _ & _).
  apply update_is_doublet_keeps in Hupd as [Hisd _].
  pose proof (simulate_doublets_Ok_inv _ _ _ _ _ _ _ Hsim) as (_ & _ & Hgen).
  assert (Hempty : drop (length (X (read_dataset W df))) is_doublet = []).
  { apply drop_ge. lia. }
  eexists _, _.
  rewrite !(saved_main _ _ _ _ _ _ _ _ _ _ _ Hpre Hmid Hsim).
  split; [saved_in_post t_thr Hq; by rewrite Hempty |].
  split; [by saved_in_post t_thr Hq |].
  split; [by saved_in_post t_thr Hq |].
  rewrite !doublets_generated_app, (quiet_doublets_generated _ Hpre),
    (quiet_doublets_generated _ Hmid), (quiet_doublets_generated _ Hq).
  cbn [doublets_generated is_doublet_generated].
  rewrite !length_drop, Hsoft, Hhard, HX, length_app. lia.
Qed.

(** C9: in a run that ends normally with a known-doublets file, every cell
    that the file flags is [True] in [is_doublet.npy]; with a classifier
    that returns one score per row of its data set, a cell is [True] there
    exactly when the file flags it or its saved score exceeds the threshold,
    so the update adds calls and clears no flag. *)
Theorem known_doublets_stay_flagged
    (W : World) (o : Options) (args : list string) (tr : list event)
    (path : string) :
  main W o args = (tr, Ok tt) ->
  known_doublets_file o = Some path ->
  exists is_doublet,
    saved (path_in (out_dir o) "is_doublet.npy") tr = [BoolArray is_doublet] /\
    length is_doublet = length (read_csv W path) /\
    (forall i, read_csv W path !! i = Some true ->
               is_doublet !! i = Some true) /\
    ((forall d, length (soft_predictions W d) = length (X d)) ->
     exists order_score threshold,
       saved (path_in (out_dir o) "scores.npy") tr
       = [FloatArray (take (length is_doublet) order_score)] /\
       outcome_of (select_threshold (expected_number_of_doublets o)
                                    order_score (length is_doublet))
       = Ok threshold /\
       forall i (flagged : bool) (score : Q),
         read_csv W path !! i = Some flagged ->
         order_score !! i = Some score ->
         exists b : bool,
           is_doublet !! i = Some b /\
           (b = true <-> flagged = true \/ (threshold < score)%Q)).
Proof.
  intros Hrun Hfile.
  apply main_Ok_inv in Hrun
    as (mj & df & known & known_data & singlets & X_doublets & cd & t_pre
        & t_sim & t_mid & t_post & -> & Hlen & Hknown & Hsim & Hmerge & Hpost
        & -> & Hpre & Hmid).
  rewrite Hfile in Hknown. subst known.
  apply post_processing_Ok_inv in Hpost
    as (t_thr & threshold & is_doublet & Hthr & Hq & Hupd & ->).
  apply merge_datasets_Ok_inv in Hmerge as (_ & _ & HX & _ & _).
  pose proof (update_is_doublet_keeps _ _ _ _ Hupd) as [Hisd Hkeep].
  exists is_doublet.
  rewrite !(saved_main _ _ _ _ _ _ _ _ _ _ _ Hpre Hmid Hsim).
  split; [| split; [done | split; [done |]]].
  { saved_in_post t_thr Hq. by rewrite take_ge by lia. }
  intros Hsoft. exists (soft_predictions W cd), threshold.
  rewrite Hisd, Hlen.
  split; [by saved_in_post t_thr Hq | split; [by rewrite Hthr |]].
  intros i flagged score Hflag Hscore.
  destruct (np_gt_lookup _ threshold _ _ Hscore) as (l & Hl & Hgt).
  exists (flagged || l). split.
  - apply (update_is_doublet_lookup
             (read_csv W path) (np_gt (soft_predictions W cd) threshold)
             (length (X (read_dataset W df))) is_doublet Hlen);
      [| done | done | done].
    unfold np_gt. rewrite length_fmap, Hsoft, HX, length_app. lia.
  - rewrite orb_true_iff, Hgt. done.
Qed.

(** ** Runs on the sample inputs *)

Lemma known_doublets_length_asserted_witness :
  exists tr,
    main {| isdir := isdir sample_world;
            read_dataset := read_dataset sample_world;
            read_csv := fun _ => [true; false];
            draw := draw sample_world;
            uniform := uniform sample_world;
            soft_predictions := soft_predictions sample_world;
            hard_predictions := hard_predictions sample_world |}
         (sample_options 1 (Some "known.tsv") Multinomial None)
         ["model.json"; "cells.loom"]
    = (tr, Raise AssertionError) /\
    Forall (fun ev => generates_or_trains ev = false) tr /\
    In (ReadCsv "known.tsv") tr.
Proof.
  refine (proj1 (known_doublets_length_asserted _
                   (sample_options 1 (Some "known.tsv") Multinomial None)
                   "model.json" "cells.loom" "known.tsv" eq_refl
                   (or_introl eq_refl)) _).
  simpl. lia.
Defined.

Lemma sample_predictions_per_row :
  (forall d, length (soft_predictions sample_world d) = length (X d)) /\
  (forall d, length (hard_predictions sample_world d) = length (X d)).
Proof.
  split; intros d; simpl; by rewrite length_fmap, length_seq.
Defined.

Lemma real_cell_outputs_have_num_cells_witness :
  exists (scores : list Q) (preds : list nat) (is_doublet : list bool),
    saved "loner_out/scores.npy"
          (trace_of (main sample_world
                          (sample_options 1 (Some "known.tsv") Multinomial
                                          (Some 1%Z))
                          ["model.json"; "cells.loom"]))
    = [FloatArray scores] /\
    length scores = 3 /\ length preds = 3 /\ length is_doublet = 3.
Proof.
  destruct (real_cell_outputs_have_num_cells sample_world
              (sample_options 1 (Some "known.tsv") Multinomial (Some 1%Z))
              ["model.json"; "cells.loom"]
              (trace_of (main sample_world
                              (sample_options 1 (Some "known.tsv")
                                              Multinomial (Some 1%Z))
                              ["model.json"; "cells.loom"])))
    as (df & scores & preds & is_doublet & Hdf & Hs & _ & _ & H1 & H2 & H3).
  - vm_compute. reflexivity.
  - exact (proj1 sample_predictions_per_row).
  - exact (proj2 sample_predictions_per_row).
  - injection Hdf as <-. exists scores, preds, is_doublet.
    split; [exact Hs |]. split; [exact H1 |]. split; [exact H2 | exact H3].
Defined.

Lemma simulated_cell_outputs_witness :
  exists (scores_sim : list Q) (preds_sim : list nat),
    saved "loner_out/is_doublet_sim.npy"
          (trace_of (main sample_world
                          (sample_options 1 None Average None)
                          ["model.json"; "cells.h5ad"]))
    = [BoolArray []] /\
    length scores_sim = 3 /\ length preds_sim = 3.
Proof.
  destruct (simulated_cell_outputs sample_world
              (sample_options 1 None Average None)
              ["model.json"; "cells.h5ad"]
              (trace_of (main sample_world
                              (sample_options 1 None Average None)
                              ["model.json"; "cells.h5ad"])))
    as (scores_sim & preds_sim & He & _ & _ & H1 & H2).
  - vm_compute. reflexivity.
  - exact (proj1 sample_predictions_per_row).
  - exact (proj2 sample_predictions_per_row).
  - exists scores_sim, preds_sim.
    split; [exact He |]. split; [exact H1 | exact H2].
Defined.

Lemma known_doublets_stay_flagged_witness :
  exists is_doublet,
    saved "loner_out/is_doublet.npy"
          (trace_of (main sample_world
                          (sample_options 1 (Some "known.tsv") Multinomial
                                          (Some 1%Z))
                          ["model.json"; "cells.loom"]))
    = [BoolArray is_doublet] /\
    is_doublet !! 0 = Some true.
Proof.
  destruct (known_doublets_stay_flagged sample_world
              (sample_options 1 (Some "known.tsv") Multinomial (Some 1%Z))
              ["model.json"; "cells.loom"]
              (trace_of (main sample_world
                              (sample_options 1 (Some "known.tsv")
                                              Multinomial (Some 1%Z))
                              ["model.json"; "cells.loom"]))
              "known.tsv")
    as (is_doublet & Hs & _ & Hkeep & _).
  - vm_compute. reflexivity.
  - reflexivity.
  - exists is_doublet. split; [exact Hs |]. apply Hkeep. reflexivity.
Defined.

(** C2: at an expected number of 0 doublets the code has no threshold.  For
    the three sample cells, whose scores are 0, 0.1 and 0.2, [k] is 3 and
    passes the assertion, [np.argpartition] refuses it and the run ends with
    [ValueError] once the scores are saved; the largest of the 3 smallest
    scores, which the claim gives as the threshold, is 0.2. *)
Theorem threshold_raises_for_zero_expected :
  select_threshold (Some 0%Z) [0; 1 # 10; 2 # 10]%Q 3
  = ([], Raise ValueError) /\
  kth_smallest [0; 1 # 10; 2 # 10]%Q 3 = Some (2 # 10)%Q /\
  outcome_of (main sample_world (sample_options 1 None Sum (Some 0%Z))
                   ["model.json"; "cells.loom"])
  = Raise ValueError /\
  saved "loner_out/is_doublet.npy"
        (trace_of (main sample_world (sample_options 1 None Sum (Some 0%Z))
                        ["model.json"; "cells.loom"]))
  = [].
Proof. vm_compute. auto. Qed.

(** * Further properties of the code *)

(** ** The doublet rules, at the edges *)

Lemma lookup_pair_in_range {A : Type} (l : list A) (i j : nat) :
  (exists x y, l !! i = Some x /\ l !! j = Some y) <->
  i < length l /\ j < length l.
Proof.
  split.
  - intros (x & y & Hx & Hy). split; by eapply lookup_lt_Some.
  - intros [Hi Hj].
    destruct (lookup_lt_is_Some_2 l i Hi) as [x Hx].
    destruct (lookup_lt_is_Some_2 l j Hj) as [y Hy]. eauto.
Qed.

(** X1: each of the three doublet rules raises [IndexError] exactly when one
    of the two cell indices lies outside the matrix; the multinomial rule is
    called with the row totals of the matrix, as [main] does. *)
Theorem doublet_rules_index_error
    (u : nat -> Q) (data : matrix) (i j : nat) (depth : Q) :
  (create_average_doublet data i j = Raise IndexError <->
   ~ (i < length data /\ j < length data)) /\
  (create_summed_doublet data i j = Raise IndexError <->
   ~ (i < length data /\ j < length data)) /\
  (create_multinomial_doublet u data i j depth (sum_axis1 data)
   = Raise IndexError <->
   ~ (i < length data /\ j < length data)).
Proof.
  rewrite <- (lookup_pair_in_range data i j).
  unfold create_average_doublet, create_summed_doublet,
    create_multinomial_doublet.
  destruct (data !! i) as [xi |] eqn:Hi; [destruct (data !! j) as [xj |] eqn:Hj |].
  - rewrite (sum_axis1_lookup _ _ _ Hi), (sum_axis1_lookup _ _ _ Hj).
    assert (Hin : exists x y : list Q, Some xi = Some x /\ Some xj = Some y)
      by eauto.
    repeat split; try done; try (intros Hn; by destruct Hn).
    destruct (Qeq_bool _ _); [done |]. unfold multinomial_rvs.
    by repeat destruct (_ : bool).
  - repeat split; try done; intros _ (x & y & _ & ?); done.
  - repeat split; try done; intros _ (x & y & ? & _); done.
Qed.

Lemma np_add_comm (a b : list Q) : Forall2 Qeq (np_add a b) (np_add b a).
Proof.
  revert b. induction a as [| x a IH]; intros [| y b]; simpl; try constructor.
  - ring.
  - apply IH.
Qed.

(** X2: the average and the sum rule do not depend on the order of the two
    cells: swapping them gives the same exception or, entry by entry, the
    same doublet. *)
Theorem doublet_rules_symmetric (data : matrix) (i j : nat) :
  match create_summed_doublet data i j, create_summed_doublet data j i with
  | Ok a, Ok b => Forall2 Qeq a b
  | Raise e, Raise e' => e = e'
  | _, _ => False
  end /\
  match create_average_doublet data i j, create_average_doublet data j i with
  | Ok a, Ok b => Forall2 Qeq a b
  | Raise e, Raise e' => e = e'
  | _, _ => False
  end.
Proof.
  unfold create_summed_doublet, create_average_doublet.
  destruct (data !! i) as [xi |], (data !! j) as [xj |]; try done.
  split; [apply np_add_comm |].
  apply Forall2_fmap, (Forall2_impl _ _ _ _ (np_add_comm xi xj)).
  intros x y Hxy. simpl. by rewrite Hxy.
Qed.

(** X3: [np.random.choice] draws with replacement, so a doublet can be made
    of one cell twice; the average doublet of a cell with itself is, entry
    by entry, that cell, and the summed doublet is twice that cell. *)
Theorem doublet_of_one_cell (data : matrix) (i : nat) (xi : list Q) :
  data !! i = Some xi ->
  exists avg sm,
    create_average_doublet data i i = Ok avg /\
    create_summed_doublet data i i = Ok sm /\
    Forall2 Qeq avg xi /\
    Forall2 (fun s x => s == 2 * x)%Q sm xi.
Proof.
  intros Hi. unfold create_average_doublet, create_summed_doublet.
  rewrite Hi. eexists _, _. split; [done |]. split; [done |].
  clear Hi. split; induction xi as [| x xi IH]; simpl; constructor;
    try done.
  - field.
  - ring.
Qed.

Lemma doublet_of_one_cell_witness :
  exists avg sm,
    create_average_doublet (X sample_dataset) 1 1 = Ok avg /\
    create_summed_doublet (X sample_dataset) 1 1 = Ok sm /\
    Forall2 Qeq avg [2; 2; 0]%Q /\
    Forall2 (fun s x => s == 2 * x)%Q sm [2; 2; 0]%Q.
Proof. apply (doublet_of_one_cell (X sample_dataset) 1). reflexivity. Defined.

(** X4: the depth of a doublet: for two non-negative rows of one width the
    summed doublet has the depth [depth_i + depth_j] of the two cells and the
    average doublet half of it, and neither has a negative entry. *)
Theorem arithmetic_doublet_depth
    (data : matrix) (num_genes i j : nat) (xi xj : list Q) :
  rectangular data num_genes ->
  data !! i = Some xi -> data !! j = Some xj ->
  Forall (fun x => 0 <= x)%Q xi -> Forall (fun x => 0 <= x)%Q xj ->
  exists avg sm,
    create_average_doublet data i j = Ok avg /\
    create_summed_doublet data i j = Ok sm /\
    (np_sum sm == np_sum xi + np_sum xj)%Q /\
    (np_sum avg == (np_sum xi + np_sum xj) / 2)%Q /\
    Forall (fun x => 0 <= x)%Q sm /\ Forall (fun x => 0 <= x)%Q avg.
Proof.
  intros Hrect Hi Hj Hxi Hxj.
  pose proof (rectangular_row _ _ _ _ Hrect Hi) as Hli.
  pose proof (rectangular_row _ _ _ _ Hrect Hj) as Hlj.
  unfold create_average_doublet, create_summed_doublet. rewrite Hi, Hj.
  eexists _, _. split; [done |]. split; [done |].
  pose proof (np_add_nonneg _ _ Hxi Hxj) as Hnn.
  split; [| split; [| split]].
  - apply np_sum_add. lia.
  - rewrite np_sum_scale, np_sum_add by lia. reflexivity.
  - exact Hnn.
  - apply Forall_fmap. eapply Forall_impl; [exact Hnn |].
    intros x Hx. cbv beta in *. simpl. apply Qle_shift_div_l; lra.
Qed.

Lemma arithmetic_doublet_depth_witness :
  exists avg sm,
    create_average_doublet (X sample_dataset) 0 1 = Ok avg /\
    create_summed_doublet (X sample_dataset) 0 1 = Ok sm /\
    (np_sum sm == 8)%Q /\ (np_sum avg == 4)%Q.
Proof.
  destruct (arithmetic_doublet_depth (X sample_dataset) 3 0 1
              [1; 0; 3]%Q [2; 2; 0]%Q)
    as (avg & sm & Ha & Hs & Hds & Hda & _).
  - repeat constructor.
  - reflexivity.
  - reflexivity.
  - repeat constructor; discriminate.
  - repeat constructor; discriminate.
  - exists avg, sm. split; [exact Ha |]. split; [exact Hs |].
    split; [exact Hds | rewrite Hda; vm_compute; reflexivity].
Defined.

(** ** Known doublets and singlets (lines 120-138) *)

Lemma bool_index_sublist {A : Type} (mask : list bool) (a : list A) :
  bool_index mask a `sublist_of` a.
Proof.
  revert mask. induction a as [| x a IH]; intros [| m mask]; simpl;
    try apply sublist_nil_l.
  destruct m; [apply sublist_skip | apply sublist_cons]; apply IH.
Qed.

Lemma bool_index_partition {A : Type} (mask : list bool) (a : list A) :
  length mask = length a ->
  bool_index mask a ++ bool_index (negb <$> mask) a ≡ₚ a.
Proof.
  revert mask. induction a as [| x a IH]; intros [| m mask] Hlen;
    simplify_eq/=; [done |].
  destruct m; simpl.
  - by rewrite IH.
  - by rewrite <- Permutation_middle, IH.
Qed.

(** X5: with a known-doublets file of one flag per cell, the split of lines
    120-131 loses and repeats no cell: the flagged rows and the unflagged
    rows are together the rows of the input, the singlets are the unflagged
    rows in their order, and both parts start with label 0 on every row. *)
Theorem known_split_partitions
    (W : World) (o : Options) (scvi_data : GeneExpressionDataset)
    (path : string) :
  known_doublets_file o = Some path ->
  length (read_csv W path) = length (X scvi_data) ->
  exists known_doublet_data singlet_scvi_data,
    outcome_of (split_known W o scvi_data)
    = Ok (read_csv W path, Some known_doublet_data, singlet_scvi_data) /\
    X known_doublet_data ++ X singlet_scvi_data ≡ₚ X scvi_data /\
    length (X known_doublet_data) + length (X singlet_scvi_data)
    = length (X scvi_data) /\
    X known_doublet_data `sublist_of` X scvi_data /\
    X singlet_scvi_data `sublist_of` X scvi_data /\
    labels known_doublet_data = replicate (length (X known_doublet_data)) 0 /\
    labels singlet_scvi_data = replicate (length (X singlet_scvi_data)) 0.
Proof.
  intros Hfile Hlen. unfold split_known. rewrite Hfile. simpl.
  rewrite Hlen, Nat.eqb_refl. simpl. eexists _, _. split; [done |]. simpl.
  pose proof (bool_index_partition (read_csv W path) (X scvi_data) Hlen)
    as Hperm.
  split; [done |]. split.
  { rewrite <- length_app. by rewrite Hperm. }
  split; [apply bool_index_sublist |]. split; [apply bool_index_sublist |].
  split; apply arrange_categories_ones.
Qed.

Lemma known_split_partitions_witness :
  exists known_doublet_data singlet_scvi_data,
    outcome_of (split_known sample_world
                  (sample_options 1 (Some "known.tsv") Multinomial None)
                  sample_dataset)
    = Ok ([true; false; false], Some known_doublet_data, singlet_scvi_data) /\
    length (X known_doublet_data) + length (X singlet_scvi_data) = 3.
Proof.
  destruct (known_split_partitions sample_world
              (sample_options 1 (Some "known.tsv") Multinomial None)
              sample_dataset "known.tsv" eq_refl eq_refl)
    as (kd & sd & Hrun & _ & Hlen & _).
  exists kd, sd. split; [exact Hrun | exact Hlen].
Defined.

(** ** The simulated matrix (lines 221-241) *)

Lemma set_row_Ok_inv (di : nat) (row : list Q) (m m' : matrix) :
  set_row di row m = Ok m' ->
  exists old row',
    m !! di = Some old /\ m' = <[di := row']> m /\
    length row' = length old /\
    (length row = length old -> row' = row).
Proof.
  unfold set_row. destruct (m !! di) as [old |]; [| done].
  destruct (decide (length row = length old)) as [He | Hne].
  - intros [= <-]. by exists old, row.
  - destruct row as [| x [| ? ?]]; try done. intros [= <-].
    exists old, (replicate (length old) x).
    repeat split; [apply length_replicate | done].
Qed.

Lemma doublet_function_Ok_length (W : World) (o : Options) (di : nat)
    (data : matrix) (g i j : nat) (depths : list Q) (row : list Q) :
  rectangular data g ->
  doublet_function W o di data i j depths = Ok row -> length row = g.
Proof.
  intros Hrect. unfold doublet_function, create_average_doublet,
    create_summed_doublet, create_multinomial_doublet.
  destruct (data !! i) as [xi |] eqn:Hi; [| by destruct (doublet_type o)].
  destruct (data !! j) as [xj |] eqn:Hj; [| by destruct (doublet_type o)].
  pose proof (rectangular_row _ _ _ _ Hrect Hi) as Hli.
  pose proof (rectangular_row _ _ _ _ Hrect Hj) as Hlj.
  destruct (doublet_type o).
  - destruct (depths !! i); [| done]. destruct (depths !! j); [| done].
    destruct (Qeq_bool _ _); [done |]. unfold multinomial_rvs.
    repeat (destruct (_ : bool); [done |]). intros [= <-].
    rewrite length_fmap, histogram_length. unfold doublet_probabilities.
    rewrite length_fmap, np_add_length; lia.
  - intros [= <-]. rewrite length_fmap, np_add_length; lia.
  - intros [= <-]. rewrite np_add_length; lia.
Qed.

(** What one turn of the loop does. *)
Lemma simulate_one_Ok_step (W : World) (o : Options)
    (singlets : GeneExpressionDataset) (depths : list Q) (di : nat)
    (m m' : matrix) (tr : list event) :
  simulate_one W o singlets depths di m = (tr, Ok m') ->
  exists i j row old row',
    i < length (X singlets) /\ j < length (X singlets) /\
    i = draw W (2 * di) mod length (X singlets) /\
    j = draw W (2 * di + 1) mod length (X singlets) /\
    tr = [DoubletGenerated di i j] /\
    doublet_function W o di (X singlets) i j depths = Ok row /\
    m !! di = Some old /\ m' = <[di := row']> m /\
    length row' = length old /\ (length row = length old -> row' = row).
Proof.
  unfold simulate_one, random_choice2. intros H.
  apply bind_Ok_inv in H as (t1 & ij & t2 & Hij & H & ->).
  apply bind_Ok_inv in H as (t3 & [] & t4 & Hev & H & ->).
  apply bind_Ok_inv in H as (t5 & row & t6 & Hrow & H & ->).
  unfold lift, emit in *.
  destruct (Nat.eqb_spec (length (X singlets)) 0) as [? | Hn]; [done |].
  injection Hij as <- <-. injection Hev as <-. injection Hrow as <- Hrow.
  injection H as <- H. cbn [fst snd] in *.
  apply set_row_Ok_inv in H as (old & row' & Hold & -> & Hlen & Hsame).
  eexists _, _, row, old, row'.
  split; [apply Nat.mod_upper_bound; lia |].
  split; [apply Nat.mod_upper_bound; lia |].
  split; [done |]. split; [done |]. split; [done |]. done.
Qed.

(** The loop over the doublets [s, s + k): it keeps the shape of the
    matrix, leaves the other rows alone and writes each row once. *)
Lemma for_each_simulate_rows (W : World) (o : Options)
    (singlets : GeneExpressionDataset) (depths : list Q) (g k s : nat)
    (m m' : matrix) (tr : list event) :
  rectangular m g ->
  for_each (simulate_one W o singlets depths) (seq s k) m = (tr, Ok m') ->
  rectangular m' g /\
  (forall di, di < s \/ s + k <= di -> m' !! di = m !! di) /\
  (forall di, s <= di < s + k ->
     exists i j row row',
       i < length (X singlets) /\ j < length (X singlets) /\
       In (DoubletGenerated di i j) tr /\
       doublet_function W o di (X singlets) i j depths = Ok row /\
       m' !! di = Some row' /\ (length row = g -> row' = row)).
Proof.
  revert s m tr. induction k as [| k IH]; intros s m tr Hm H; simpl in H.
  - unfold ret in H. injection H as <- <-.
    split; [done |]. split; [done |]. intros di ?. lia.
  - apply bind_Ok_inv in H as (t1 & m1 & t2 & H1 & H2 & ->).
    apply simulate_one_Ok_step in H1
      as (i & j & row & old & row' & Hi & Hj & _ & _ & -> & Hfun & Hold & ->
          & Hlen & Hsame).
    pose proof (rectangular_row _ _ _ _ Hm Hold) as Hlo.
    assert (Hm1 : rectangular (<[s := row']> m) g).
    { unfold rectangular. apply Forall_insert; [exact Hm | lia]. }
    destruct (IH (S s) _ _ Hm1 H2) as (Hrect & Hout & Hin).
    split; [exact Hrect |]. split.
    + intros di Hdi. rewrite Hout by lia.
      apply list_lookup_insert_ne. lia.
    + intros di Hdi. destruct (decide (di = s)) as [-> | Hne].
      * exists i, j, row, row'. repeat split; try done.
        -- simpl. auto.
        -- rewrite Hout by lia. apply list_lookup_insert_eq.
           by eapply lookup_lt_Some.
        -- intros Hg. apply Hsame. lia.
      * destruct (Hin di) as (i' & j' & r & r' & ? & ? & ? & ? & ? & ?);
          [lia |].
        exists i', j', r, r'. repeat split; try done.
        simpl. right. done.
Qed.

Lemma simulate_doublets_loop (W : World) (o : Options)
    (singlets : GeneExpressionDataset)
    (known : option GeneExpressionDataset) (g : nat)
    (tr : list event) (m : matrix) :
  simulate_doublets W o singlets known g = (tr, Ok m) ->
  exists n,
    for_each (simulate_one W o singlets (sum_axis1 (X singlets)))
             (seq 0 n) (replicate n (replicate g 0%Q)) = (tr, Ok m).
Proof.
  unfold simulate_doublets. rewrite count_doublets_eq. intros H.
  apply bind_Ok_inv in H as (t1 & z & t2 & Hz & H & ->).
  apply bind_Ok_inv in H as (t3 & m0 & t4 & Hm0 & H & ->).
  unfold lift, np_zeros2 in Hm0. destruct (z <? 0)%Z; [done |].
  injection Hz as <- _. injection Hm0 as <- <-.
  by exists (Z.to_nat z).
Qed.

(** X6: the simulated matrix keeps the shape it is allocated with: after
    the loop, whatever the doublet rule, every row of [X_doublets] has
    [num_genes] entries, and there is one row per doublet generated. *)
Theorem simulated_doublets_shape
    (W : World) (o : Options) (singlets : GeneExpressionDataset)
    (known : option GeneExpressionDataset) (num_genes : nat)
    (tr : list event) (X_doublets : matrix) :
  simulate_doublets W o singlets known num_genes = (tr, Ok X_doublets) ->
  rectangular X_doublets num_genes /\
  length X_doublets = doublets_generated tr.
Proof.
  intros H. split.
  - apply simulate_doublets_loop in H as (n & H).
    eapply for_each_simulate_rows; [| exact H].
    apply Forall_replicate, length_replicate.
  - by apply simulate_doublets_Ok_inv in H as (_ & _ & ->).
Qed.

Lemma simulated_doublets_shape_witness :
  exists X_doublets,
    outcome_of (simulate_doublets sample_world
                  (sample_options 1 None Multinomial None)
                  sample_dataset None 3) = Ok X_doublets /\
    rectangular X_doublets 3.
Proof.
  eexists. split; [vm_compute; reflexivity |].
  eapply (proj1 (simulated_doublets_shape sample_world
                   (sample_options 1 None Multinomial None)
                   sample_dataset None 3 _ _ _)).
  Unshelve. 2: vm_compute; reflexivity.
Defined.

(** X7: every synthetic doublet is made of two singlets.  When the singlet
    matrix has [num_genes] columns, row [di] of [X_doublets] is what the
    chosen doublet rule returns for the singlet cells [i] and [j] of the
    call traced for [di], both below the number of singlets and drawn as
    [np.random.choice] gives them; rows of known doublets cannot enter. *)
Theorem simulated_rows_are_singlet_pairs
    (W : World) (o : Options) (singlets : GeneExpressionDataset)
    (known : option GeneExpressionDataset) (num_genes : nat)
    (tr : list event) (X_doublets : matrix) :
  simulate_doublets W o singlets known num_genes = (tr, Ok X_doublets) ->
  rectangular (X singlets) num_genes ->
  forall di row, X_doublets !! di = Some row ->
    exists i j,
      i < length (X singlets) /\ j < length (X singlets) /\
      In (DoubletGenerated di i j) tr /\
      doublet_function W o di (X singlets) i j (sum_axis1 (X singlets))
      = Ok row.
Proof.
  intros H Hrect di row Hrow.
  pose proof (simulate_doublets_loop _ _ _ _ _ _ _ H) as (n & Hloop).
  pose proof (for_each_simulate_Ok_inv _ _ _ _ _ _ _ _ Hloop) as [Hlen _].
  rewrite length_replicate in Hlen.
  assert (Hzeros : rectangular (replicate n (replicate num_genes 0%Q))
                               num_genes)
    by apply Forall_replicate, length_replicate.
  destruct (for_each_simulate_rows W o singlets _ num_genes n 0 _ _ _
              Hzeros Hloop) as (_ & _ & Hin).
  destruct (Hin di) as (i & j & r & r' & Hi & Hj & Hev & Hfun & Hget & Hsame).
  { apply lookup_lt_Some in Hrow. lia. }
  exists i, j. repeat split; try done.
  rewrite Hget in Hrow. injection Hrow as <-.
  rewrite Hsame; [done |].
  exact (doublet_function_Ok_length _ _ _ _ _ _ _ _ _ Hrect Hfun).
Qed.

Lemma simulated_rows_are_singlet_pairs_witness :
  exists i j,
    i < 3 /\ j < 3 /\
    doublet_function sample_world (sample_options 1 None Sum None) 1
                     (X sample_dataset) i j (sum_axis1 (X sample_dataset))
    = Ok [1; 1; 3]%Q.
Proof.
  destruct (simulated_rows_are_singlet_pairs sample_world
              (sample_options 1 None Sum None) sample_dataset None 3
              (trace_of (simulate_doublets sample_world
                           (sample_options 1 None Sum None)
                           sample_dataset None 3))
              [[3; 2; 3]; [1; 1; 3]; [2; 3; 0]]%Q)
    with (di := 1) (row := [1; 1; 3]%Q)
    as (i & j & Hi & Hj & _ & Hfun).
  - vm_compute. reflexivity.
  - repeat constructor.
  - reflexivity.
  - exists i, j. split; [exact Hi |]. split; [exact Hj |]. exact Hfun.
Defined.

(** ** [main] up to the classifier data *)







Lemma mask_incr_flags (mask : list bool) (l : list nat) :
  Forall (fun v => v = 0) l -> length mask = length l ->
  mask_incr mask l = Ok ((fun m : bool => if m then 1 else 0) <$> mask).
Proof.
  intros Hl Hlen. destruct (mask_incr mask l) as [l' | e] eqn:H.
  - by apply (mask_incr_zeros _ _ _ Hl) in H as [_ ->].
  - unfold mask_incr in H. by destruct (decide (length mask = length l)).
Qed.

(** The label column of the classifier data before the constructor renumbers
    it, for an unlabelled input. *)
Lemma merge_datasets_unlabelled (scvi_data : GeneExpressionDataset)
    (known : list bool) (X_doublets : matrix) :
  Forall (fun v => v = 0) (labels scvi_data) ->
  length known = length (labels scvi_data) ->
  outcome_of (merge_datasets scvi_data known X_doublets)
  = Raise AssertionError /\ trace_of (merge_datasets scvi_data known X_doublets) = []
  \/ exists cd, merge_datasets scvi_data known X_doublets = ([], Ok cd).
Proof.
  intros Hzero Hlen. unfold merge_datasets.
  rewrite (mask_incr_flags _ _ Hzero Hlen). unfold lift, bind, py_assert.
  cbv beta iota. destruct (Nat.eqb _ 2); simpl; eauto.
Qed.

Lemma np_unique_both_bits (l : list nat) :
  Forall (fun v => v <= 1) l -> 0 ∈ l -> 1 ∈ l -> np_unique l = [0; 1].
Proof.
  intros Hl H0 H1. apply np_unique_elem_of in H0, H1.
  destruct (np_unique_bits l Hl) as [Hu | [Hu | [Hu | Hu]]]; [| | | done];
    rewrite Hu in H0, H1.
  - by apply elem_of_nil in H0.
  - by apply list_elem_of_singleton in H1.
  - by apply list_elem_of_singleton in H0.
Qed.

Lemma arrange_categories_both_bits (l : list nat) :
  Forall (fun v => v <= 1) l -> 0 ∈ l -> 1 ∈ l -> arrange_categories l = l.
Proof.
  intros Hl H0 H1.
  rewrite (arrange_categories_with _ _ (np_unique_both_bits l Hl H0 H1)).
  clear H0 H1. induction Hl as [| v l Hv _ IH]; [done |].
  rewrite fmap_cons, IH. f_equal.
  assert (v = 0 \/ v = 1) as [-> | ->] by lia; done.
Qed.

Lemma flags_elem_of (known : list bool) (b : bool) :
  (if b then 1 else 0) ∈ (fun m : bool => if m then 1 else 0) <$> known <->
  b ∈ known.
Proof.
  rewrite list_elem_of_fmap. split.
  - intros (m & Hm & Hin). by destruct b, m.
  - intros Hin. by exists b.
Qed.

Lemma flag_labels_bits (known : list bool) (n : nat) :
  Forall (fun v => v <= 1)
         (((fun m : bool => if m then 1 else 0) <$> known) ++ replicate n 1).
Proof.
  apply Forall_app. split.
  - apply Forall_fmap, Forall_true. intros []; simpl; lia.
  - apply Forall_replicate. lia.
Qed.

Lemma flag_labels_zero (known : list bool) (n : nat) :
  0 ∈ ((fun m : bool => if m then 1 else 0) <$> known) ++ replicate n 1 <->
  false ∈ known.
Proof.
  rewrite elem_of_app, elem_of_replicate.
  rewrite <- (flags_elem_of known false). intuition lia.
Qed.

Lemma flag_labels_one (known : list bool) (n : nat) :
  1 ∈ ((fun m : bool => if m then 1 else 0) <$> known) ++ replicate n 1 <->
  true ∈ known \/ n <> 0.
Proof.
  rewrite elem_of_app, elem_of_replicate.
  rewrite <- (flags_elem_of known true). intuition lia.
Qed.

(** The assertion of line 258 passes only with both labels present. *)
Lemma merge_datasets_Ok_needs (scvi_data : GeneExpressionDataset)
    (known : list bool) (X_doublets : matrix) (tr : list event)
    (cd : GeneExpressionDataset) :
  Forall (fun v => v = 0) (labels scvi_data) ->
  length known = length (labels scvi_data) ->
  merge_datasets scvi_data known X_doublets = (tr, Ok cd) ->
  false ∈ known /\ (true ∈ known \/ length X_doublets <> 0).
Proof.
  intros Hzero Hlen Hrun.
  apply merge_datasets_Ok_inv in Hrun as (l' & Hmask & _ & Hlab & Htwo).
  rewrite (mask_incr_flags _ _ Hzero Hlen) in Hmask. injection Hmask as <-.
  pose proof (flag_labels_bits known (length X_doublets)) as Hbits.
  rewrite <- flag_labels_zero, <- flag_labels_one.
  set (L0 := _ ++ _) in *.
  assert (Hid : labels cd = L0).
  { rewrite Hlab. apply arrange_categories_bits; [done |]. by rewrite <- Hlab. }
  rewrite Hid in Htwo.
  destruct (two_unique_values _ Htwo) as (a & b & Hab & Hv).
  assert (Ha : a <= 1).
  { rewrite Forall_forall in Hbits. apply Hbits, Hv. auto. }
  assert (Hb : b <= 1).
  { rewrite Forall_forall in Hbits. apply Hbits, Hv. auto. }
  split; apply Hv; lia.
Qed.

(** With both labels present the assertion of line 258 passes. *)
Lemma merge_datasets_Ok_given (scvi_data : GeneExpressionDataset)
    (known : list bool) (X_doublets : matrix) :
  Forall (fun v => v = 0) (labels scvi_data) ->
  length known = length (labels scvi_data) ->
  false ∈ known -> true ∈ known \/ length X_doublets <> 0 ->
  exists cd, merge_datasets scvi_data known X_doublets = ([], Ok cd).
Proof.
  intros Hzero Hlen Hin0 Hin1.
  destruct (merge_datasets_unlabelled scvi_data known X_doublets Hzero Hlen)
    as [[Hfail _] | Hok]; [| done].
  exfalso. revert Hfail. unfold merge_datasets.
  rewrite (mask_incr_flags _ _ Hzero Hlen).
  unfold lift, bind, py_assert, concat_datasets,
    make_gene_expression_dataset, new_GeneExpressionDataset.
  cbn [labels X gene_names fst snd].
  rewrite arrange_categories_ones, fmap_replicate.
  pose proof (flag_labels_bits known (length X_doublets)) as Hbits.
  apply flag_labels_zero with (n := length X_doublets) in Hin0.
  apply flag_labels_one in Hin1.
  rewrite (arrange_categories_both_bits _ Hbits Hin0 Hin1).
  rewrite (np_unique_both_bits _ Hbits Hin0 Hin1). done.
Qed.

(** Without both labels lines 245-258 end with [AssertionError]. *)
Lemma merge_datasets_fails (scvi_data : GeneExpressionDataset)
    (known : list bool) (X_doublets : matrix) :
  Forall (fun v => v = 0) (labels scvi_data) ->
  length known = length (labels scvi_data) ->
  ~ (false ∈ known /\ (true ∈ known \/ length X_doublets <> 0)) ->
  merge_datasets scvi_data known X_doublets = ([], Raise AssertionError).
Proof.
  intros Hzero Hlen Hnot.
  destruct (merge_datasets_unlabelled scvi_data known X_doublets Hzero Hlen)
    as [[Hfail Htr] | [cd Hok]].
  - destruct (merge_datasets _ _ _) as [t r]. simpl in *. by subst.
  - by apply merge_datasets_Ok_needs in Hok.
Qed.

(** X8: for an unlabelled input and one flag per cell, the assertion of line
    258 passes exactly when some cell is not flagged and there is a flagged
    cell or a synthetic doublet; every other run of lines 245-258 ends with
    [AssertionError]. *)
Theorem merge_succeeds_iff
    (scvi_data : GeneExpressionDataset) (known_doublets : list bool)
    (X_doublets : matrix) :
  Forall (fun v => v = 0) (labels scvi_data) ->
  length known_doublets = length (labels scvi_data) ->
  ((exists cd, merge_datasets scvi_data known_doublets X_doublets
               = ([], Ok cd)) <->
   false ∈ known_doublets /\
   (true ∈ known_doublets \/ length X_doublets <> 0)) /\
  (~ (false ∈ known_doublets /\
      (true ∈ known_doublets \/ length X_doublets <> 0)) ->
   merge_datasets scvi_data known_doublets X_doublets
   = ([], Raise AssertionError)).
Proof.
  intros Hzero Hlen. split; [split |].
  - intros (cd & Hrun). by eapply merge_datasets_Ok_needs.
  - intros [H0 H1]. by apply merge_datasets_Ok_given.
  - by apply merge_datasets_fails.
Qed.

Lemma merge_succeeds_iff_witness :
  (exists cd, merge_datasets sample_dataset [true; false; false] []
              = ([], Ok cd)) /\
  merge_datasets sample_dataset [false; false; false] []
  = ([], Raise AssertionError).
Proof.
  split.
  - apply (proj1 (merge_succeeds_iff sample_dataset [true; false; false] []
                    ltac:(repeat constructor) eq_refl)).
    split; [| left]; rewrite !elem_of_cons; auto.
  - apply (proj2 (merge_succeeds_iff sample_dataset [false; false; false] []
                    ltac:(repeat constructor) eq_refl)).
    intros [_ [Ht | Hx]]; [| done].
    rewrite !elem_of_cons, elem_of_nil in Ht. intuition discriminate.
Defined.










(** ** The threshold, case by case (lines 349-361) *)

Lemma half_lt_ratio (e : Z) (n : nat) :
  0 < n ->
  ((1 # 2) < inject_Z e / inject_Z (Z.of_nat n))%Q <-> (Z.of_nat n < 2 * e)%Z.
Proof.
  intros Hn.
  assert (Hpos : (0 < inject_Z (Z.of_nat n))%Q).
  { unfold Qlt. simpl. lia. }
  rewrite <- (Qmult_lt_r _ _ _ Hpos).
  assert (Hdiv : (inject_Z e / inject_Z (Z.of_nat n) * inject_Z (Z.of_nat n)
                  == inject_Z e)%Q) by (field; lra).
  rewrite Hdiv.
  unfold Qlt. simpl. lia.
Qed.

(** The warning of lines 352-355 is printed exactly when [e / n > .5]. *)
Lemma warning_step (e : Z) (n : nat) :
  0 < n ->
  (if Nat.eqb n 0 then raise ZeroDivisionError
   else if Qlt_le_dec (1 # 2) (inject_Z e / inject_Z (Z.of_nat n))
        then emit (Print half_warning)
        else ret tt)
  = (half_warning_trace e n, Ok tt).
Proof.
  intros Hn. destruct (Nat.eqb_spec n 0) as [? | _]; [lia |].
  unfold half_warning_trace.
  destruct (Qlt_le_dec _ _) as [Hlt | Hle];
    destruct (decide (Z.of_nat n < 2 * e)%Z) as [Hd | Hd]; try done.
  - by apply half_lt_ratio in Hlt.
  - apply (half_lt_ratio e n Hn) in Hd. lra.
Qed.

(** X11: the ways the threshold selection fails when [-e] is given: with no
    real cell the division of line 352 raises [ZeroDivisionError]; with
    [e >= n] the warning is printed and line 356 raises [AssertionError];
    with [e <= 0] nothing is printed and [np.argpartition] raises
    [ValueError]. *)
Theorem select_threshold_failures
    (e : Z) (order_score : list Q) (num_cells : nat) :
  let n := length (take num_cells order_score) in
  (n = 0 ->
   select_threshold (Some e) order_score num_cells
   = ([], Raise ZeroDivisionError)) /\
  (0 < n -> (Z.of_nat n <= e)%Z ->
   select_threshold (Some e) order_score num_cells
   = ([Print half_warning], Raise AssertionError)) /\
  (0 < n -> (e <= 0)%Z ->
   select_threshold (Some e) order_score num_cells
   = ([], Raise ValueError)).
Proof.
  intros n. unfold select_threshold. fold n. split; [| split].
  - intros ->. reflexivity.
  - intros Hn He. rewrite (warning_step e n Hn).
    unfold half_warning_trace. rewrite decide_True by lia.
    destruct (Z.ltb_spec 0 (Z.of_nat n - e)) as [? | _]; [lia |]. reflexivity.
  - intros Hn He. rewrite (warning_step e n Hn).
    unfold half_warning_trace. rewrite decide_False by lia.
    destruct (Z.ltb_spec 0 (Z.of_nat n - e)) as [_ | ?]; [| lia].
    rewrite np_argpartition_out_of_range; [done | | lia].
    intros Hnil. unfold n in Hn. rewrite Hnil in Hn. simpl in Hn. lia.
Qed.

Lemma select_threshold_failures_witness :
  select_threshold (Some 5%Z) [1 # 10; 7 # 10; 4 # 10]%Q 3
  = ([Print half_warning], Raise AssertionError).
Proof.
  apply (proj1 (proj2 (select_threshold_failures 5
                         [1 # 10; 7 # 10; 4 # 10]%Q 3))); simpl; lia.
Defined.

(** The threshold for [0 < e < n]: the largest of the scores at the first
    [n - e] positions of the partition. *)
Lemma select_threshold_value (e : Z) (order_score : list Q)
    (num_cells : nat) :
  let loner_scores := take num_cells order_score in
  let k := length loner_scores - Z.to_nat e in
  (0 < e < Z.of_nat (length loner_scores))%Z ->
  exists m s,
    select_threshold (Some e) order_score num_cells
    = (half_warning_trace e (length loner_scores), Ok m) /\
    m ∈ loner_scores /\
    kth_smallest loner_scores k = Some s /\ (m == s)%Q /\
    has_rank loner_scores (k - 1) s.
Proof.
  intros loner_scores k He.
  assert (Hk : (Z.of_nat (length loner_scores) - e = Z.of_nat k)%Z)
    by (unfold k; lia).
  assert (Hk0 : 0 < k) by (unfold k; lia).
  assert (Hkn : k < length loner_scores) by (unfold k; lia).
  destruct (partition_max_kth_smallest loner_scores k _
              (argsort_partitioned loner_scores k) Hk0 Hkn)
    as (m & s & Htake & Hmax & Hs & Hms).
  exists m, s. split; [| split; [| split; [done | split; [done |]]]].
  - unfold select_threshold. fold loner_scores.
    rewrite (warning_step e (length loner_scores)) by lia. rewrite Hk.
    destruct (Z.ltb_spec 0 (Z.of_nat k)) as [_ | ?]; [| lia].
    rewrite np_argpartition_in_range, Nat2Z.id by lia.
    unfold py_assert, ret, lift, bind. cbv beta iota.
    rewrite Htake, Hmax. by rewrite app_nil_r.
  - unfold np_max in Hmax.
    destruct (score_of loner_scores <$> take k _) as [| v vs] eqn:Hv;
      [done |].
    injection Hmax as <-.
    destruct (foldl_Qmax_spec v vs) as [Hin _]. rewrite <- Hv in Hin.
    apply list_elem_of_fmap in Hin as (i & -> & Hi).
    apply elem_of_take in Hi as (p & Hp & _).
    assert (Hil : i < length loner_scores).
    { assert (i ∈ seq 0 (length loner_scores)) as Hseq.
      { rewrite <- (merge_sort_Permutation (score_le loner_scores)).
        by eapply list_elem_of_lookup_2. }
      apply elem_of_seq in Hseq. lia. }
    eapply list_elem_of_lookup_2. by apply score_of_lookup.
  - apply (has_rank_Permutation (sorted_scores loner_scores)).
    + apply merge_sort_Permutation.
    + apply sorted_has_rank; [| exact Hs].
      apply StronglySorted_merge_sort; apply _.
Qed.

(** X12: with an expected number [e] of doublets, [0 < e < n] for [n] real
    cells, the threshold selection ends normally: it prints the warning
    exactly when [e] is more than half of [n], and its threshold is one of
    the real cells' scores, the [n - e]-th smallest of them. *)
Theorem threshold_is_kth_smallest
    (e : Z) (order_score : list Q) (num_cells : nat) :
  let loner_scores := take num_cells order_score in
  (0 < e < Z.of_nat (length loner_scores))%Z ->
  exists threshold s,
    select_threshold (Some e) order_score num_cells
    = (if decide (Z.of_nat (length loner_scores) < 2 * e)%Z
       then [Print half_warning] else [],
       Ok threshold) /\
    threshold ∈ loner_scores /\
    kth_smallest loner_scores (length loner_scores - Z.to_nat e) = Some s /\
    (threshold == s)%Q.
Proof.
  intros loner_scores He.
  destruct (select_threshold_value e order_score num_cells He)
    as (m & s & Hrun & Hin & Hs & Hms & _).
  by exists m, s.
Qed.

Lemma threshold_is_kth_smallest_witness :
  exists threshold,
    select_threshold (Some 1%Z) [1 # 10; 7 # 10; 4 # 10; 9 # 10]%Q 3
    = ([], Ok threshold) /\
    (threshold == 4 # 10)%Q.
Proof.
  destruct (threshold_is_kth_smallest 1 [1 # 10; 7 # 10; 4 # 10; 9 # 10]%Q 3)
    as (threshold & s & Hrun & _ & Hs & Hts).
  - simpl. lia.
  - exists threshold. split; [exact Hrun |].
    rewrite Hts. vm_compute in Hs. injection Hs as <-. reflexivity.
Defined.

Lemma count_ext (f g : Q -> bool) (a : list Q) :
  (forall x, f x = g x) -> count f a = count g a.
Proof.
  intros H. induction a as [| x a IH]; simpl; [done |]. by rewrite H, IH.
Qed.

Lemma count_pos_lookup (f : Q -> bool) (a : list Q) :
  0 < count f a -> exists j y, a !! j = Some y /\ f y = true.
Proof.
  induction a as [| x a IH]; simpl; [lia |].
  destruct (f x) eqn:Hx.
  - intros _. by exists 0, x.
  - intros H. destruct IH as (j & y & Hj & Hy); [lia |]. by exists (S j), y.
Qed.

Lemma np_gt_count (a : list Q) (t : Q) :
  num_flagged (np_gt a t) + count (at_most t) a = length a.
Proof.
  unfold num_flagged, np_gt, at_most.
  induction a as [| x a IH]; [done |].
  rewrite fmap_cons, filter_cons. simpl.
  destruct (Qlt_le_dec t x); simpl; lia.
Qed.

Lemma at_most_split (s : Q) (a : list Q) :
  count (at_most s) a = count (below s) a + count (same_score s) a.
Proof.
  induction a as [| x a IH]; simpl; [done |]. rewrite IH.
  unfold at_most, below, same_score.
  destruct (Qlt_le_dec s x) as [H1 | H1], (Qlt_le_dec x s) as [H2 | H2],
    (Qeq_bool x s) eqn:H3; try lia; exfalso; try lra;
    try (apply Qeq_bool_iff in H3; lra).
  apply Qeq_bool_neq in H3. apply H3. lra.
Qed.

(** Scores that differ pairwise hold a value at most once. *)
Lemma count_same_score_distinct (s : Q) (a : list Q) :
  (forall i j x y, a !! i = Some x -> a !! j = Some y -> (x == y)%Q -> i = j) ->
  count (same_score s) a <= 1.
Proof.
  induction a as [| x a IH]; intros Hd; simpl; [lia |].
  assert (IH' : count (same_score s) a <= 1).
  { apply IH. intros i j u v Hi Hj Huv.
    by injection (Hd (S i) (S j) u v Hi Hj Huv). }
  destruct (same_score s x) eqn:Hx; [| lia].
  destruct (count (same_score s) a) as [| c] eqn:Hc; [lia |]. exfalso.
  destruct (count_pos_lookup (same_score s) a) as (j & y & Hj & Hy); [lia |].
  unfold same_score in *. apply Qeq_bool_iff in Hx, Hy.
  assert (0 = S j); [| done].
  apply (Hd 0 (S j) x y); [done | done |]. by rewrite Hx, Hy.
Qed.

(** X13: with an expected number [e] of doublets, [0 < e < n], the
    classifier calls at most [e] of the [n] real cells doublets, and exactly
    [e] of them when no two real cells have the same score. *)
Theorem at_most_expected_calls
    (e : Z) (order_score : list Q) (num_cells : nat) :
  let loner_scores := take num_cells order_score in
  (0 < e < Z.of_nat (length loner_scores))%Z ->
  exists threshold,
    outcome_of (select_threshold (Some e) order_score num_cells)
    = Ok threshold /\
    take num_cells (np_gt order_score threshold)
    = np_gt loner_scores threshold /\
    num_flagged (np_gt loner_scores threshold) <= Z.to_nat e /\
    ((forall i j x y, loner_scores !! i = Some x ->
        loner_scores !! j = Some y -> (x == y)%Q -> i = j) ->
     num_flagged (np_gt loner_scores threshold) = Z.to_nat e).
Proof.
  intros loner_scores He.
  destruct (select_threshold_value e order_score num_cells He)
    as (m & s & Hrun & _ & _ & Hms & [Hlow Hhigh]).
  subst loner_scores. cbv zeta in *.
  set (loner_scores := take num_cells order_score) in *.
  exists m. split; [by rewrite Hrun |].
  split; [unfold np_gt, loner_scores; by rewrite fmap_take |].
  pose proof (np_gt_count loner_scores m) as Hcount.
  assert (Hsame : count (at_most m) loner_scores
                  = count (at_most s) loner_scores).
  { apply count_ext. intros x. unfold at_most.
    destruct (Qlt_le_dec m x) as [H1 | H1], (Qlt_le_dec s x) as [H2 | H2];
      try done; exfalso; clear -Hms H1 H2; lra. }
  rewrite Hsame in Hcount. split; [lia |].
  intros Hdistinct.
  pose proof (count_same_score_distinct s loner_scores Hdistinct).
  pose proof (at_most_split s loner_scores). lia.
Qed.

Lemma at_most_expected_calls_witness :
  exists threshold,
    outcome_of (select_threshold (Some 1%Z)
                  [1 # 10; 7 # 10; 4 # 10; 9 # 10]%Q 3) = Ok threshold /\
    num_flagged (np_gt [1 # 10; 7 # 10; 4 # 10]%Q threshold) = 1.
Proof.
  destruct (at_most_expected_calls 1 [1 # 10; 7 # 10; 4 # 10; 9 # 10]%Q 3)
    as (threshold & Hrun & _ & _ & Hexact).
  - simpl. lia.
  - exists threshold. split; [exact Hrun |]. apply Hexact.
    intros i j x y Hi Hj Hxy.
    destruct i as [| [| [| i]]], j as [| [| [| j]]]; simpl in Hi, Hj;
      try discriminate; try reflexivity;
      injection Hi as <-; injection Hj as <-; discriminate Hxy.
Defined.

(** ** What reaches the disk (lines 343-388) *)

(** X14: without a known-doublets file, in a run that ends normally with a
    classifier that returns one score per row of its data set,
    [is_doublet.npy] is exactly the classifier's call on the scores of
    [scores.npy]: entry [i] is [True] when score [i] exceeds the threshold,
    which is 0.5 unless [-e] is given. *)
Theorem flags_without_known_doublets
    (W : World) (o : Options) (args : list string) (tr : list event) :
  main W o args = (tr, Ok tt) ->
  known_doublets_file o = None ->
  (forall d, length (soft_predictions W d) = length (X d)) ->
  exists scores order_score threshold,
    saved (path_in (out_dir o) "scores.npy") tr = [FloatArray scores] /\
    scores = take (length scores) order_score /\
    outcome_of (select_threshold (expected_number_of_doublets o)
                                 order_score (length scores)) = Ok threshold /\
    (expected_number_of_doublets o = None -> threshold = (1 # 2)%Q) /\
    saved (path_in (out_dir o) "is_doublet.npy") tr
    = [BoolArray (np_gt scores threshold)].
Proof.
  intros Hrun Hfile Hsoft.
  apply main_Ok_inv in Hrun
    as (mj & df & known & known_data & singlets & X_doublets & cd & t_pre
        & t_sim & t_mid & t_post & -> & Hlen & Hknown & Hsim & Hmerge & Hpost
        & -> & Hpre & Hmid).
  rewrite Hfile in Hknown. subst known.
  apply post_processing_Ok_inv in Hpost
    as (t_thr & threshold & is_doublet & Hthr & Hq & Hupd & ->).
  apply merge_datasets_Ok_inv in Hmerge as (_ & _ & HX & _ & _).
  set (n := length (X (read_dataset W df))) in *.
  assert (Hn : n <= length (soft_predictions W cd))
    by (rewrite Hsoft, HX, length_app; lia).
  assert (Hls : length (take n (soft_predictions W cd)) = n)
    by (rewrite length_take; lia).
  exists (take n (soft_predictions W cd)), (soft_predictions W cd), threshold.
  rewrite !(saved_main _ _ _ _ _ _ _ _ _ _ _ Hpre Hmid Hsim), Hls.
  split; [by saved_in_post t_thr Hq |]. split; [done |].
  split; [by rewrite Hthr |]. split.
  { intros He. rewrite He in Hthr. by injection Hthr as _ <-. }
  saved_in_post t_thr Hq. do 2 f_equal.
  pose proof (update_is_doublet_keeps _ _ _ _ Hupd) as [Hisd _].
  rewrite length_replicate in Hisd. rewrite take_ge by lia.
  apply list_eq. intros i.
  destruct (decide (i < n)) as [Hi | Hi].
  - destruct (lookup_lt_is_Some_2 (soft_predictions W cd) i) as [s Hs];
      [lia |].
    destruct (np_gt_lookup _ threshold _ _ Hs) as (l & Hl & _).
    assert (Hle : n <= length (np_gt (soft_predictions W cd) threshold))
      by (unfold np_gt; rewrite length_fmap; lia).
    assert (Hf : replicate n false !! i = Some false)
      by (by apply lookup_replicate_2).
    rewrite (update_is_doublet_lookup _ _ n _ Hlen Hle Hupd i false l Hf Hl).
    unfold np_gt in *. rewrite list_lookup_fmap, lookup_take_lt by done.
    rewrite list_lookup_fmap in Hl. by rewrite Hl.
  - rewrite !lookup_ge_None_2; [done | |].
    + unfold np_gt. rewrite length_fmap. lia.
    + lia.
Qed.

Lemma flags_without_known_doublets_witness :
  saved "loner_out/is_doublet.npy"
        (trace_of (main sample_world (sample_options 1 None Average None)
                        ["model.json"; "cells.h5ad"]))
  = [BoolArray (np_gt [0; 1 # 10; 2 # 10]%Q (1 # 2))].
Proof.
  destruct (flags_without_known_doublets sample_world
              (sample_options 1 None Average None)
              ["model.json"; "cells.h5ad"]
              (trace_of (main sample_world
                              (sample_options 1 None Average None)
                              ["model.json"; "cells.h5ad"])))
    as (scores & order_score & threshold & Hs & _ & _ & Hhalf & Hflags).
  - vm_compute. reflexivity.
  - reflexivity.
  - exact (proj1 sample_predictions_per_row).
  - rewrite (Hhalf eq_refl) in Hflags.
    vm_compute in Hs. injection Hs as <-. exact Hflags.
Defined.

(** X15: the two slices of each prediction array lose nothing: in a run
    that ends normally, [scores.npy] followed by [scores_sim.npy] is the
    score vector that the classifier returned for its data set, and
    [preds.npy] followed by [preds_sim.npy] is its prediction vector; the
    rows of that data set start with the cells of the input. *)
Theorem saved_slices_round_trip
    (W : World) (o : Options) (args : list string) (tr : list event) :
  main W o args = (tr, Ok tt) ->
  exists data_file classifier_data scores scores_sim preds preds_sim,
    args !! 1 = Some data_file /\
    X (read_dataset W data_file) `prefix_of` X classifier_data /\
    saved (path_in (out_dir o) "scores.npy") tr = [FloatArray scores] /\
    saved (path_in (out_dir o) "scores_sim.npy") tr
    = [FloatArray scores_sim] /\
    saved (path_in (out_dir o) "preds.npy") tr = [IntArray preds] /\
    saved (path_in (out_dir o) "preds_sim.npy") tr = [IntArray preds_sim] /\
    scores ++ scores_sim = soft_predictions W classifier_data /\
    preds ++ preds_sim = hard_predictions W classifier_data.
Proof.
  intros Hrun.
  apply main_Ok_inv in Hrun
    as (mj & df & known & known_data & singlets & X_doublets & cd & t_pre
        & t_sim & t_mid & t_post & -> & Hlen & _ & Hsim & Hmerge & Hpost
        & -> & Hpre & Hmid).
  apply post_processing_Ok_inv in Hpost
    as (t_thr & threshold & is_doublet & _ & Hq & _ & ->).
  apply merge_datasets_Ok_inv in Hmerge as (_ & _ & HX & _ & _).
  eexists df, cd, _, _, _, _. split; [done |].
  split; [rewrite HX; by apply prefix_app_r |].
  rewrite !(saved_main _ _ _ _ _ _ _ _ _ _ _ Hpre Hmid Hsim).
  split; [by saved_in_post t_thr Hq |].
  split; [by saved_in_post t_thr Hq |].
  split; [by saved_in_post t_thr Hq |].
  split; [by saved_in_post t_thr Hq |].
  by rewrite !take_drop.
Qed.

Lemma saved_slices_round_trip_witness :
  exists scores scores_sim,
    saved "loner_out/scores.npy"
          (trace_of (main sample_world (sample_options 1 None Average None)
                          ["model.json"; "cells.h5ad"]))
    = [FloatArray scores] /\
    saved "loner_out/scores_sim.npy"
          (trace_of (main sample_world (sample_options 1 None Average None)
                          ["model.json"; "cells.h5ad"]))
    = [FloatArray scores_sim] /\
    length (scores ++ scores_sim) = 6.
Proof.
  destruct (saved_slices_round_trip sample_world
              (sample_options 1 None Average None)
              ["model.json"; "cells.h5ad"]
              (trace_of (main sample_world
                              (sample_options 1 None Average None)
                              ["model.json"; "cells.h5ad"])))
    as (df & cd & scores & scores_sim & preds & preds_sim & _ & _ & Hs & Hss
        & _ & _ & Hcat & _).
  - vm_compute. reflexivity.
  - exists scores, scores_sim. split; [exact Hs |]. split; [exact Hss |].
    vm_compute in Hs, Hss. injection Hs as <-. injection Hss as <-.
    reflexivity.
Defined.









(** ** The accuracy curves (lines 314-331) *)

Lemma num_flagged_le_length (a : list bool) : num_flagged a <= length a.
Proof. unfold num_flagged. apply length_filter. Qed.

Lemma np_gt_none (score : list Q) (t : Q) :
  Forall (fun s => s <= t)%Q score ->
  np_gt score t = replicate (length score) false.
Proof.
  induction 1 as [| s score Hs _ IH]; [done |].
  unfold np_gt in *. rewrite fmap_cons, IH. simpl.
  destruct (Qlt_le_dec t s); [lra | done].
Qed.

Lemma np_equal_false (y : list bool) :
  np_equal y (replicate (length y) false) = negb <$> y.
Proof.
  induction y as [| b y IH]; [done |].
  unfold np_equal in *. simpl. rewrite IH. by destruct b.
Qed.

Lemma num_flagged_negb (y : list bool) :
  num_flagged (negb <$> y) + num_flagged y = length y.
Proof.
  unfold num_flagged. induction y as [| b y IH]; [done |].
  rewrite fmap_cons, !filter_cons. destruct b; simpl; lia.
Qed.

(** X17: for labels and scores of one non-empty length, the accuracy at a
    threshold is a fraction between 0 and 1, and at a threshold that no
    score exceeds it is the share of samples whose label is [False]. *)
Theorem accuracy_is_a_fraction (y : list bool) (score : list Q) (t : Q) :
  length y = length score -> y <> [] ->
  exists acc,
    accuracy_at y score t = Some acc /\
    (0 <= acc <= 1)%Q /\
    (Forall (fun s => s <= t)%Q score ->
     (acc == inject_Z (Z.of_nat (num_flagged (negb <$> y)))
             / inject_Z (Z.of_nat (length y)))%Q).
Proof.
  intros Hlen Hy. unfold accuracy_at, np_mean.
  set (m := np_equal y (np_gt score t)).
  assert (Hm : length m = length y).
  { unfold m, np_equal, np_gt. rewrite length_zip_with, length_fmap. lia. }
  destruct m as [| b m'] eqn:Em.
  { destruct y; [done | simpl in Hm; lia]. }
  rewrite <- Em in *. clear Em b m'.
  eexists. split; [reflexivity |].
  assert (Hpos : (0 < inject_Z (Z.of_nat (length m)))%Q).
  { unfold Qlt. simpl. destruct y; [done |]. rewrite Hm. simpl. lia. }
  pose proof (num_flagged_le_length m) as Hle.
  split; [split |].
  - apply Qle_shift_div_l; [done |]. unfold Qle. simpl. lia.
  - apply Qle_shift_div_r; [done |]. unfold Qle. simpl. lia.
  - intros Hnone. unfold m. rewrite (np_gt_none _ _ Hnone), <- Hlen.
    rewrite np_equal_false, length_fmap. reflexivity.
Qed.

Lemma accuracy_is_a_fraction_witness :
  exists acc,
    accuracy_at [true; false; false; true] [9 # 10; 2 # 10; 6 # 10; 4 # 10]%Q
                (1 # 2)
    = Some acc /\
    (0 <= acc <= 1)%Q.
Proof.
  destruct (accuracy_is_a_fraction [true; false; false; true]
              [9 # 10; 2 # 10; 6 # 10; 4 # 10]%Q (1 # 2))
    as (acc & Hacc & Hfrac & _).
  - reflexivity.
  - discriminate.
  - exists acc. split; [exact Hacc | exact Hfrac].
Defined.

(** X18: clipping the thresholds at [1 + 1e-9] (lines 314-315) moves points
    of the plot but changes no accuracy: when no score exceeds the bound,
    as for probabilities, the accuracies at the clipped thresholds are the
    accuracies at the thresholds themselves, and no clipped threshold
    exceeds the bound. *)
Theorem clipping_keeps_accuracies
    (y : list bool) (score : list Q) (ts : list Q) :
  Forall (fun s => s <= clip_bound)%Q score ->
  accuracy_curve y score (np_minimum ts clip_bound)
  = accuracy_curve y score ts /\
  Forall (fun t => t <= clip_bound)%Q (np_minimum ts clip_bound) /\
  length (accuracy_curve y score ts) = length ts.
Proof.
  intros Hscore. split; [| split].
  - unfold accuracy_curve, np_minimum. rewrite <- list_fmap_compose.
    apply list_fmap_ext. intros _ t _. simpl. unfold accuracy_at.
    f_equal. f_equal. unfold np_gt. apply list_fmap_ext. intros i s Hs.
    rewrite Forall_lookup in Hscore. specialize (Hscore i s Hs).
    simpl in Hscore.
    destruct (Qlt_le_dec clip_bound t) as [Hc | Hc]; [| done].
    destruct (Qlt_le_dec clip_bound s), (Qlt_le_dec t s); try done; lra.
  - unfold np_minimum. apply Forall_fmap, Forall_true. intros t. simpl.
    destruct (Qlt_le_dec clip_bound t); lra.
  - unfold accuracy_curve. apply length_fmap.
Qed.

Lemma clipping_keeps_accuracies_witness :
  accuracy_curve [true; false] [9 # 10; 2 # 10]%Q
                 (np_minimum [19 # 10; 1 # 2]%Q clip_bound)
  = accuracy_curve [true; false] [9 # 10; 2 # 10]%Q [19 # 10; 1 # 2]%Q.
Proof.
  destruct (clipping_keeps_accuracies [true; false] [9 # 10; 2 # 10]%Q
              [19 # 10; 1 # 2]%Q) as [Hcurve _].
  - repeat constructor; discriminate.
  - exact Hcurve.
Defined.

(** ** Every index the script uses is in range *)

Lemma bind_never_raises {A B : Type} (e : exn) (m : M A) (f : A -> M B) :
  never_raises e m ->
  (forall t a, m = (t, Ok a) -> never_raises e (f a)) ->
  never_raises e (bind m f).
Proof.
  unfold never_raises, outcome_of, bind. intros Hm Hf.
  destruct m as [t [a | e']].
  - specialize (Hf t a eq_refl). by destruct (f a).
  - simpl in *. intros [= ->]. by apply Hm.
Qed.

Lemma emit_never_raises (e : exn) (ev : event) : never_raises e (emit ev).
Proof. done. Qed.












(** ** The division of line 352 *)

Lemma for_each_never_raises {S : Type} (e : exn) (body : nat -> S -> M S)
    (xs : list nat) (s : S) :
  (forall x s', never_raises e (body x s')) ->
  never_raises e (for_each body xs s).
Proof.
  intros Hbody. revert s. induction xs as [| x xs IH]; intros s; [done |].
  simpl. apply bind_never_raises; [apply Hbody |]. intros _ s' _. apply IH.
Qed.

Lemma simulate_doublets_no_division (W : World) (o : Options)
    (singlets : GeneExpressionDataset)
    (known : option GeneExpressionDataset) (g : nat) :
  never_raises ZeroDivisionError (simulate_doublets W o singlets known g).
Proof.
  unfold simulate_doublets. rewrite count_doublets_eq.
  apply bind_never_raises.
  { destruct known; [destruct (0 <=? _)%Z |]; done. }
  intros _ n _. apply bind_never_raises.
  { unfold np_zeros2. by destruct (n <? 0)%Z. }
  intros _ m _. apply for_each_never_raises. intros di m'.
  unfold simulate_one. apply bind_never_raises.
  { unfold random_choice2. by destruct (Nat.eqb _ 0). }
  intros _ ij _. apply bind_never_raises; [done |]. intros _ _ _.
  apply bind_never_raises.
  - unfold doublet_function, create_average_doublet, create_summed_doublet,
      create_multinomial_doublet, lift, never_raises. simpl.
    destruct (doublet_type o), (X singlets !! ij.1), (X singlets !! ij.2);
      try done.
    destruct (sum_axis1 (X singlets) !! ij.1),
      (sum_axis1 (X singlets) !! ij.2); try done.
    destruct (Qeq_bool _ _); [done |]. unfold multinomial_rvs.
    by repeat destruct (_ : bool).
  - intros _ row _. unfold set_row, lift, never_raises. simpl.
    destruct (m' !! di); [| done]. destruct (decide _); [done |].
    by destruct row as [| ? [| ? ?]].
Qed.

(** The classifier's data set has a real cell: without one every label is
    that of a simulated doublet and the assertion of line 258 fails. *)
Lemma merge_datasets_real_cell (scvi_data : GeneExpressionDataset)
    (known_doublets : list bool) (X_doublets : matrix) (tr : list event)
    (classifier_data : GeneExpressionDataset) :
  merge_datasets scvi_data known_doublets X_doublets
  = (tr, Ok classifier_data) ->
  known_doublets <> [].
Proof.
  intros Hrun ->.
  apply merge_datasets_Ok_inv in Hrun as (l' & Hmask & _ & Hlab & Htwo).
  unfold mask_incr in Hmask. destruct (decide _); [| done].
  injection Hmask as <-. simpl in Hlab.
  rewrite arrange_categories_ones in Hlab. rewrite Hlab in Htwo.
  pose proof (np_unique_NoDup (replicate (length X_doublets) 0)) as Hnd.
  destruct (np_unique _) as [| a [| b [| ? ?]]] eqn:Hu; try done.
  assert (Ha : a ∈ np_unique (replicate (length X_doublets) 0))
    by (rewrite Hu; apply list_elem_of_here).
  assert (Hb : b ∈ np_unique (replicate (length X_doublets) 0))
    by (rewrite Hu; apply list_elem_of_further, list_elem_of_here).
  apply np_unique_elem_of, elem_of_replicate_inv in Ha, Hb. subst.
  apply NoDup_cons in Hnd as [Hnd _]. apply Hnd, list_elem_of_here.
Qed.

Lemma select_threshold_no_division (expected : option Z)
    (order_score : list Q) (num_cells : nat) :
  take num_cells order_score <> [] ->
  never_raises ZeroDivisionError
    (select_threshold expected order_score num_cells).
Proof.
  intros Hne. unfold select_threshold. destruct expected as [e |]; [| done].
  apply bind_never_raises.
  { destruct (Nat.eqb_spec (length (take num_cells order_score)) 0) as [H0 | _].
    - by apply nil_length_inv in H0.
    - by destruct (Qlt_le_dec _ _). }
  intros _ _ _. apply bind_never_raises.
  { unfold py_assert. by destruct (0 <? _)%Z. }
  intros _ _ _. apply bind_never_raises.
  { unfold np_argpartition, lift, never_raises. simpl.
    by destruct (negb _ && _). }
  intros _ idx _. apply bind_never_raises.
  - unfold take_at, lift, never_raises. simpl. by destruct (mapM _ _).
  - intros _ smallest _. unfold lift, np_max, never_raises. simpl.
    by destruct smallest.
Qed.

Lemma update_is_doublet_no_division
    (known_doublets is_loner_doublet : list bool) (num_cells : nat) :
  update_is_doublet known_doublets is_loner_doublet num_cells
  <> Raise ZeroDivisionError.
Proof.
  unfold update_is_doublet, np_and, set_true.
  destruct (decide _).
  - by destruct (forallb _ _).
  - destruct (negb <$> known_doublets) as [| x [| ? ?]],
      (take num_cells is_loner_doublet) as [| y [| ? ?]];
      try done; by destruct (forallb _ _).
Qed.

(** X20: when the classifier returns one score per row of its data set,
    [main] never ends in a [ZeroDivisionError]: the division by the number
    of real cells in line 352 is reached only after the assertion of line
    258, which a data set without real cells does not pass. *)
Theorem main_never_divides_by_zero
    (W : World) (o : Options) (args : list string) :
  (forall d, length (soft_predictions W d) = length (X d)) ->
  never_raises ZeroDivisionError (main W o args).
Proof.
  intros Hscores. unfold main.
  apply bind_never_raises.
  { unfold parse_args. by destruct args as [| ? [| ? [| ? ?]]]. }
  intros _ files _.
  apply bind_never_raises.
  { unfold ensure_out_dir. by destruct (isdir W (out_dir o)). }
  intros _ _ _.
  apply bind_never_raises.
  { unfold load_data. by repeat destruct (String.eqb _ _). }
  intros _ scvi_data_var _.
  apply bind_never_raises.
  { by destruct scvi_data_var. }
  intros _ scvi_data _.
  apply bind_never_raises.
  { unfold split_known. destruct (known_doublets_file o); [| done].
    do 3 (apply bind_never_raises; [done |]; intros _ _ _).
    apply bind_never_raises; [| done].
    unfold py_assert. by destruct (Nat.eqb _ _). }
  intros ts [[known kd] singlets] Hsplit.
  apply split_known_Ok_inv in Hsplit as (_ & Hknown & _). cbn [fst snd].
  apply bind_never_raises.
  { unfold vae_stage. destruct (seed o) as [s |];
      [destruct (String.eqb s "") |]; done. }
  intros _ _ _.
  apply bind_never_raises; [apply simulate_doublets_no_division |].
  intros _ X_doublets _.
  apply bind_never_raises.
  { unfold merge_datasets. apply bind_never_raises.
    - unfold mask_incr, lift, never_raises. simpl. by destruct (decide _).
    - intros _ l _. apply bind_never_raises; [| done].
      unfold py_assert. by destruct (Nat.eqb _ 2). }
  intros tm classifier_data Hmerge.
  apply bind_never_raises; [done |]. intros _ _ _.
  pose proof (merge_datasets_real_cell _ _ _ _ _ Hmerge) as Hreal.
  apply merge_datasets_Ok_inv in Hmerge as (_ & _ & HX & _).
  unfold post_processing.
  do 2 (apply bind_never_raises; [done |]; intros _ _ _).
  apply bind_never_raises.
  { apply select_threshold_no_division. intros Hnil.
    apply (f_equal length) in Hnil.
    rewrite length_take, Hscores, HX, length_app in Hnil. simpl in Hnil.
    destruct known; [done | simpl in Hknown; lia]. }
  intros _ threshold _.
  do 2 (apply bind_never_raises; [done |]; intros _ _ _).
  apply bind_never_raises.
  { apply update_is_doublet_no_division. }
  intros _ is_doublet _.
  do 3 (apply bind_never_raises; [done |]; intros _ _ _).
  done.
Qed.

Lemma main_never_divides_by_zero_witness :
  never_raises ZeroDivisionError
    (main sample_world
          (sample_options 1 (Some "known.csv") Multinomial (Some 1%Z))
          ["model.json"; "cells.loom"]).
Proof.
  apply (main_never_divides_by_zero sample_world). intros d. simpl.
  by rewrite length_fmap, length_seq.
Defined.
